(** * az-vm-zone-migration: the migration orchestration, embedded in Rocq

    The script [az-vm-zone-migration.py] moves Azure virtual machines between
    availability zones: for every row of a CSV file it inspects the source VM,
    compares zones, checks the size catalog, snapshots every disk, deletes the
    VM, recreates it in the desired zone from the original managed disks and
    starts it.

    The embedding is shallow.  Every function of the script that takes part in
    the orchestration is a Rocq function of the same name in a small monad
    that threads the state of the outside world, collects the trace of
    provider calls and log lines, and carries Python's two ways of leaving a
    function abnormally (a raised exception, [sys.exit]).  The Azure SDK
    client is an interface ([ComputeManagementClient]): the theorems quantify
    over every implementation of it. *)

From Stdlib Require Import String Ascii List ZArith Lia Bool PeanoNat.
Import ListNotations.
Open Scope string_scope.
Open Scope list_scope.

(** ** Python exceptions *)

(** The exception classes the script distinguishes.  [ResourceNotFoundError]
    and [ResourceExistsError] are the two classes of [azure.core.exceptions]
    named in [except] clauses; [HttpResponseError] stands for the other
    provider failures; [TypeError] and [IndexError] are raised by the
    interpreter itself ([x in None], [l[0]] on an empty list).  All of them
    derive from [Exception]. *)
Inductive exn_class : Set :=
| ResourceNotFoundError
| ResourceExistsError
| HttpResponseError
| TypeError
| IndexError
| OtherException.

(** An exception value: its class and [str(e)]. *)
Record exn : Set := mkExn { exn_cls : exn_class; exn_str : string }.

Definition exn_class_eqb (a b : exn_class) : bool :=
  match a, b with
  | ResourceNotFoundError, ResourceNotFoundError
  | ResourceExistsError, ResourceExistsError
  | HttpResponseError, HttpResponseError
  | TypeError, TypeError
  | IndexError, IndexError
  | OtherException, OtherException => true
  | _, _ => false
  end.

(** [isinstance(e, cls)] for the flat hierarchy above. *)
Definition isinstance (e : exn) (c : exn_class) : bool := exn_class_eqb (exn_cls e) c.

(** What a provider call hands back: a value, or a raised exception. *)
Definition result (A : Type) : Type := (A + exn)%type.

(** ** Strings *)

(** [needle in hay] on Python strings. *)
Fixpoint contains (needle hay : string) : bool :=
  match hay with
  | EmptyString => prefix needle EmptyString
  | String _ rest => prefix needle hay || contains needle rest
  end.

(** [x in l] for a list of strings: equality with some element. *)
Definition str_in (x : string) (l : list string) : bool := existsb (String.eqb x) l.

Definition lower_ascii (c : ascii) : ascii :=
  let n := nat_of_ascii c in
  if (65 <=? n)%nat && (n <=? 90)%nat then ascii_of_nat (n + 32) else c.

(** [s.lower()], on the ASCII letters. *)
Fixpoint lower (s : string) : string :=
  match s with
  | EmptyString => EmptyString
  | String c rest => String (lower_ascii c) (lower rest)
  end.

(** The ASCII characters [str.strip()] removes. *)
Definition is_space (c : ascii) : bool :=
  let n := nat_of_ascii c in
  ((9 <=? n)%nat && (n <=? 13)%nat) || ((28 <=? n)%nat && (n <=? 32)%nat).

Fixpoint lstrip (s : string) : string :=
  match s with
  | EmptyString => EmptyString
  | String c rest => if is_space c then lstrip rest else s
  end.

Fixpoint string_rev (s : string) : string :=
  match s with
  | EmptyString => EmptyString
  | String c rest => (string_rev rest ++ String c EmptyString)%string
  end.

(** [s.strip()]. *)
Definition strip (s : string) : string :=
  string_rev (lstrip (string_rev (lstrip s))).

(** ** [datetime.now().strftime('%Y%m%d%H%M%S')] *)

Record datetime : Set := mkDatetime {
  year : nat; month : nat; day : nat; hour : nat; minute : nat; second : nat
}.

Definition digit (n : nat) : ascii := ascii_of_nat (48 + n mod 10).

Definition pad2 (n : nat) : string :=
  String (digit (n / 10)) (String (digit n) EmptyString).

Definition pad4 (n : nat) : string :=
  String (digit (n / 1000)) (String (digit (n / 100)) (pad2 n)).

(** The format ['%Y%m%d%H%M%S']: four digits of year, two of every other
    field, to the second. *)
Definition strftime_YmdHMS (t : datetime) : string :=
  (pad4 (year t) ++ pad2 (month t) ++ pad2 (day t)
   ++ pad2 (hour t) ++ pad2 (minute t) ++ pad2 (second t))%string.

(** ** The data the script reads and writes *)

(** One row of the CSV file, a field per column [main] reads:
    ['#Source Resource Group Name'], ['Source VM Name'], ['Source OS Type'],
    ['Desired Resource Group Name'], ['Desired VM Name'], ['Desired Zone']. *)
Record Row : Set := mkRow {
  Source_Resource_Group_Name : string;
  Source_VM_Name : string;
  Source_OS_Type : string;
  Desired_Resource_Group_Name : string;
  Desired_VM_Name : string;
  Desired_Zone : string
}.

(** The part of the SDK's [VirtualMachine] the script reads.  [zones] is
    [None] for a VM that is pinned to no zone. *)
Record ManagedDiskParameters : Set := mkManagedDisk {
  md_id : string;
  md_storage_account_type : string
}.

Record Disk : Set := mkDisk {
  disk_name : string;
  managed_disk : ManagedDiskParameters
}.

Record StorageProfile : Set := mkStorageProfile {
  os_disk : Disk;
  data_disks : list Disk
}.

Record NetworkInterfaceReference : Set := mkNic { nic_id : string }.

Record VirtualMachine : Set := mkVm {
  location : string;
  zones : option (list string);
  vm_size : string;                                  (* hardware_profile.vm_size *)
  storage_profile : StorageProfile;
  network_interfaces : list NetworkInterfaceReference  (* network_profile.network_interfaces *)
}.

(** An entry of the size-class catalog. *)
Record ResourceSku : Set := mkSku {
  sku_name : string;
  sku_locations : list string
}.

(** The [Snapshot] model [create_snapshot] builds. *)
Record Snapshot : Set := mkSnapshot {
  snap_location : string;
  snap_create_option : string;
  snap_source_resource_id : string;
  snap_sku_name : string
}.

(** The dictionary [create_vm] passes to [begin_create_or_update]. *)
Record OsDiskParam : Set := mkOsDiskParam {
  osd_managed_disk_id : string;
  osd_create_option : string;
  osd_os_type : string
}.

Record DataDiskParam : Set := mkDataDiskParam {
  dd_managed_disk_id : string;
  dd_create_option : string
}.

Record VmParameters : Set := mkVmParameters {
  p_location : string;
  p_os_disk : OsDiskParam;
  p_data_disks : list DataDiskParam;
  p_vm_size : string;
  p_network_interfaces : list string;
  p_zones : list string
}.

(** ** The trace: provider calls and log lines *)

Inductive level : Set := DEBUG | INFO | WARNING | ERROR.

(** The log lines of the script, one constructor per format string. *)
Inductive message : Set :=
| MsgVmSku (vm_name rg size : string)
| MsgVmNotFound (vm_name rg : string)
| MsgVmCheckError (vm_name rg : string) (e : exn)
| MsgOsDisk (name rid : string)
| MsgDataDisk (name rid : string)
| MsgCreatingSnapshot (disk snapshot_name : string)
| MsgSnapshotNotFound (disk rid rg : string)
| MsgDeletingVm (vm_name rg : string) (zs : option (list string))
| MsgCreatingVm (vm_name rg zone : string)
| MsgCreateSkuNotAvailable (size loc : string)
| MsgCreateError (vm_name : string) (e : exn)
| MsgSkuCheckError (e : exn)
| MsgStartingVm (vm_name rg : string)
| MsgVmExists (vm_name rg : string) (zs : option (list string))
| MsgSameZone (zone : string)
| MsgSizeNotAvailable (size loc : string)
| MsgErrorOccurred (e : exn)
| MsgSeparator.

(** The requests the script sends through [compute_client]. *)
Inductive request : Set :=
| VirtualMachinesGet (rg vm_name : string)
| ResourceSkusList
| SnapshotsBeginCreateOrUpdate (rg snapshot_name : string) (snapshot : Snapshot)
| VirtualMachinesBeginDelete (rg vm_name : string)
| DeleteOperationResult (rg vm_name : string)
| VirtualMachinesBeginCreateOrUpdate (rg vm_name : string) (parameters : VmParameters)
| VirtualMachinesBeginStart (rg vm_name : string).

(** An event of a run: a log line, or a provider call together with the
    exception it raised ([None] when it returned). *)
Inductive event : Set :=
| Log (l : level) (m : message)
| Call (r : request) (raised : option exn).

(** ** The outside world *)

(** The long-running operation [begin_delete] returns: its [result()] method
    blocks until the provider reports completion, or raises. *)
Definition LROPoller (W : Type) : Type := W -> result unit * W.

(** What iterating [resource_skus.list()] does: it yields the entries of the
    first component and then either ends ([None]) or raises.  A failure of the
    call itself is the empty list followed by the exception. *)
Definition SkuIterator : Type := (list ResourceSku * option exn)%type.

(** The operations of [ComputeManagementClient] the script uses, over a state
    of the world [W]. *)
Record ComputeManagementClient (W : Type) : Type := mkClient {
  virtual_machines_get : string -> string -> W -> result VirtualMachine * W;
  resource_skus_list : W -> SkuIterator * W;
  snapshots_begin_create_or_update :
    string -> string -> Snapshot -> W -> result unit * W;
  virtual_machines_begin_delete : string -> string -> W -> result (LROPoller W) * W;
  virtual_machines_begin_create_or_update :
    string -> string -> VmParameters -> W -> result unit * W;
  virtual_machines_begin_start : string -> string -> W -> result unit * W;
  datetime_now : W -> datetime * W
}.

Arguments virtual_machines_get {W}.
Arguments resource_skus_list {W}.
Arguments snapshots_begin_create_or_update {W}.
Arguments virtual_machines_begin_delete {W}.
Arguments virtual_machines_begin_create_or_update {W}.
Arguments virtual_machines_begin_start {W}.
Arguments datetime_now {W}.

(** ** The monad of the script *)

(** How a Python function ends: it returns, raises an exception deriving from
    [Exception], or calls [sys.exit] ([SystemExit] is not an [Exception], so no
    [except Exception] clause catches it). *)
Inductive outcome (A : Type) : Type :=
| Return (a : A)
| Raise (e : exn)
| SysExit (code : Z).

Arguments Return {A}.
Arguments Raise {A}.
Arguments SysExit {A}.

Definition M (W A : Type) : Type := W -> outcome A * W * list event.

Definition ret {W A} (a : A) : M W A := fun w => (Return a, w, []).

Definition bind {W A B} (m : M W A) (f : A -> M W B) : M W B :=
  fun w =>
    match m w with
    | (Return a, w1, t1) =>
        match f a w1 with (o, w2, t2) => (o, w2, t1 ++ t2) end
    | (Raise e, w1, t1) => (Raise e, w1, t1)
    | (SysExit c, w1, t1) => (SysExit c, w1, t1)
    end.

Definition raise {W A} (e : exn) : M W A := fun w => (Raise e, w, []).

Definition sys_exit {W A} (code : Z) : M W A := fun w => (SysExit code, w, []).

Definition logging {W} (l : level) (m : message) : M W unit :=
  fun w => (Return tt, w, [Log l m]).

(** [try: body  except <classes>: handler]; the handler runs in the world the
    body left behind. *)
Definition try_except {W A} (body : M W A) (catches : exn -> bool)
    (handler : exn -> M W A) : M W A :=
  fun w =>
    match body w with
    | (Raise e, w1, t1) =>
        if catches e
        then match handler e w1 with (o, w2, t2) => (o, w2, t1 ++ t2) end
        else (Raise e, w1, t1)
    | r => r
    end.

(** A provider call: it is recorded in the trace with its request, and a
    raised exception propagates. *)
Definition call {W A} (r : request) (f : W -> result A * W) : M W A :=
  fun w =>
    match f w with
    | (inl a, w1) => (Return a, w1, [Call r None])
    | (inr e, w1) => (Raise e, w1, [Call r (Some e)])
    end.

(** Reading the clock leaves no trace. *)
Definition lift {W A} (f : W -> A * W) : M W A :=
  fun w => match f w with (a, w1) => (Return a, w1, []) end.

Declare Scope py_scope.
Delimit Scope py_scope with py.
Notation "x <- m ;; k" := (bind m (fun x => k))
  (at level 61, m at next level, right associativity) : py_scope.
Notation "m ;; k" := (bind m (fun _ => k))
  (at level 61, right associativity) : py_scope.
Open Scope py_scope.

(** [for x in l: body x]. *)
Fixpoint for_each {W A} (l : list A) (body : A -> M W unit) : M W unit :=
  match l with
  | [] => ret tt
  | x :: rest => body x ;; for_each rest body
  end.

Definition any_exception (e : exn) : bool := true.

(** ** The script *)

Section Script.

Context {W : Type}.
(** The module-level globals [compute_client] and [check_only]. *)
Variable compute_client : ComputeManagementClient W.
Variable check_only : bool.

Definition check_vm_exists (resource_group vm_name : string)
  : M W (option VirtualMachine) :=
  try_except
    (vm <- call (VirtualMachinesGet resource_group vm_name)
                (virtual_machines_get compute_client resource_group vm_name) ;;
     logging INFO (MsgVmSku vm_name resource_group (vm_size vm)) ;;
     ret (Some vm))
    any_exception
    (fun e =>
       (if contains "ResourceNotFound" (exn_str e)
        then logging WARNING (MsgVmNotFound vm_name resource_group)
        else logging ERROR (MsgVmCheckError vm_name resource_group e)) ;;
       ret None).

Definition list_vm_disks (vm : VirtualMachine) : M W unit :=
  let os := os_disk (storage_profile vm) in
  logging INFO (MsgOsDisk (disk_name os) (md_id (managed_disk os))) ;;
  for_each (data_disks (storage_profile vm))
    (fun disk => logging INFO (MsgDataDisk (disk_name disk) (md_id (managed_disk disk)))).

(** The name [create_snapshot] gives the snapshot of a disk. *)
Definition snapshot_name_of (disk : string) (t : datetime) : string :=
  (disk ++ "-" ++ strftime_YmdHMS t)%string.

(** The [Snapshot] object of [create_snapshot]: the redundancy class is the
    constant ['Standard_ZRS'], whatever [storage_type] is. *)
Definition snapshot_of (loc disk_id : string) : Snapshot :=
  {| snap_location := loc;
     snap_create_option := "Copy";
     snap_source_resource_id := disk_id;
     snap_sku_name := "Standard_ZRS" |}.

Definition create_snapshot
    (resource_group disk disk_id loc storage_type : string) : M W unit :=
  try_except
    (now <- lift (datetime_now compute_client) ;;
     let snapshot_name := snapshot_name_of disk now in
     logging INFO (MsgCreatingSnapshot disk snapshot_name) ;;
     let snapshot := snapshot_of loc disk_id in
     call (SnapshotsBeginCreateOrUpdate resource_group snapshot_name snapshot)
          (snapshots_begin_create_or_update compute_client
             resource_group snapshot_name snapshot))
    (fun e => isinstance e ResourceNotFoundError)
    (fun _ => logging ERROR (MsgSnapshotNotFound disk disk_id resource_group)).

Definition delete_vm (resource_group vm_name : string) (zs : option (list string))
  : M W unit :=
  logging INFO (MsgDeletingVm vm_name resource_group zs) ;;
  delete_operation <- call (VirtualMachinesBeginDelete resource_group vm_name)
                           (virtual_machines_begin_delete compute_client
                              resource_group vm_name) ;;
  call (DeleteOperationResult resource_group vm_name) delete_operation.

(** The request body of [create_vm]. *)
Definition vm_parameters
    (zone os_disk_id : string) (data_disk_ids : list string)
    (network_interface_id size loc os_type : string) : VmParameters :=
  {| p_location := loc;
     p_os_disk := {| osd_managed_disk_id := os_disk_id;
                     osd_create_option := "Attach";
                     osd_os_type := os_type |};
     p_data_disks :=
       map (fun disk_id => {| dd_managed_disk_id := disk_id;
                              dd_create_option := "Attach" |}) data_disk_ids;
     p_vm_size := size;
     p_network_interfaces := [network_interface_id];
     p_zones := [zone] |}.

Definition create_vm
    (resource_group vm_name zone os_disk_id : string) (data_disk_ids : list string)
    (network_interface_id size loc os_type : string) : M W unit :=
  try_except
    (logging INFO (MsgCreatingVm vm_name resource_group zone) ;;
     let parameters :=
       vm_parameters zone os_disk_id data_disk_ids network_interface_id
                     size loc os_type in
     call (VirtualMachinesBeginCreateOrUpdate resource_group vm_name parameters)
          (virtual_machines_begin_create_or_update compute_client
             resource_group vm_name parameters))
    (fun e => isinstance e ResourceExistsError)
    (fun e =>
       if contains "SkuNotAvailable" (exn_str e)
       then logging WARNING (MsgCreateSkuNotAvailable size loc)
       else logging ERROR (MsgCreateError vm_name e)).

(** The test of the loop in [is_sku_available]. *)
Definition sku_matches (loc size : string) (sku : ResourceSku) : bool :=
  String.eqb (sku_name sku) size && str_in loc (sku_locations sku).

(** The loop of [is_sku_available] over what the iterator yields: [True] at
    the first match, [False] at the end, and the iterator's exception if it
    raises before a match. *)
Fixpoint scan_skus (loc size : string) (items : list ResourceSku)
    (stop : option exn) : outcome bool :=
  match items with
  | sku :: rest =>
      if sku_matches loc size sku then Return true
      else scan_skus loc size rest stop
  | [] => match stop with None => Return false | Some e => Raise e end
  end.

Definition is_sku_available (loc size : string) : M W bool :=
  try_except
    (fun w =>
       match resource_skus_list compute_client w with
       | ((items, stop), w1) =>
           match scan_skus loc size items stop with
           | Raise e => (Raise e, w1, [Call ResourceSkusList (Some e)])
           | o => (o, w1, [Call ResourceSkusList None])
           end
       end)
    any_exception
    (fun e => logging ERROR (MsgSkuCheckError e) ;; ret false).

Definition check_sku_availability (loc size : string) : M W bool :=
  try_except
    (available <- is_sku_available loc size ;;
     ret available)
    any_exception
    (fun e => logging ERROR (MsgSkuCheckError e) ;; ret false).

Definition start_vm (resource_group vm_name : string) : M W unit :=
  logging INFO (MsgStartingVm vm_name resource_group) ;;
  call (VirtualMachinesBeginStart resource_group vm_name)
       (virtual_machines_begin_start compute_client resource_group vm_name).

(** [desired_zone in vm.zones]: a [TypeError] when [vm.zones] is [None]. *)
Definition zone_in (desired_zone : string) (zs : option (list string)) : M W bool :=
  match zs with
  | None => raise (mkExn TypeError "argument of type 'NoneType' is not iterable")
  | Some l => ret (str_in desired_zone l)
  end.

(** [l[0].id] on the network interfaces: an [IndexError] on the empty list. *)
Definition first_nic_id (l : list NetworkInterfaceReference) : M W string :=
  match l with
  | [] => raise (mkExn IndexError "list index out of range")
  | nic :: _ => ret (nic_id nic)
  end.

(** The [try] block of [main] (lines 274-285): snapshot the OS disk and every
    data disk, then collect the identifiers the recreation needs.  Any
    exception ends the whole run with [sys.exit(1)]. *)
Definition snapshot_and_collect (source_rg : string) (vm : VirtualMachine)
  : M W (string * list string * string * string) :=
  try_except
    (let os := os_disk (storage_profile vm) in
     let os_disk_storage_type := md_storage_account_type (managed_disk os) in
     create_snapshot source_rg (disk_name os) (md_id (managed_disk os))
                     (location vm) os_disk_storage_type ;;
     for_each (data_disks (storage_profile vm))
       (fun disk =>
          create_snapshot source_rg (disk_name disk) (md_id (managed_disk disk))
                          (location vm) (md_storage_account_type (managed_disk disk))) ;;
     let os_disk_id := md_id (managed_disk os) in
     let data_disk_ids :=
       map (fun disk => md_id (managed_disk disk)) (data_disks (storage_profile vm)) in
     network_interface_id <- first_nic_id (network_interfaces vm) ;;
     let size := vm_size vm in
     ret (os_disk_id, data_disk_ids, network_interface_id, size))
    any_exception
    (fun e => logging ERROR (MsgErrorOccurred e) ;; sys_exit 1).

(** ['Linux' if 'linux' in source_os_type else 'Windows'], with
    [source_os_type = row['Source OS Type'].strip().lower()]. *)
Definition os_type_of (row : Row) : string :=
  let source_os_type := lower (strip (Source_OS_Type row)) in
  if contains "linux" source_os_type then "Linux" else "Windows".

(** The body of [if vm:] in the loop of [main]; [continue] is the end of the
    body. *)
Definition main_vm (row : Row) (vm : VirtualMachine) : M W unit :=
  let source_rg := Source_Resource_Group_Name row in
  let source_vm := Source_VM_Name row in
  let desired_rg := Desired_Resource_Group_Name row in
  let desired_vm := Desired_VM_Name row in
  let desired_zone := Desired_Zone row in
  let os_type := os_type_of row in
  logging INFO (MsgVmExists source_vm source_rg (zones vm)) ;;
  list_vm_disks vm ;;
  same_zone <- zone_in desired_zone (zones vm) ;;
  if same_zone then logging WARNING (MsgSameZone desired_zone)
  else if check_only then ret tt
  else
    available <- check_sku_availability (location vm) (vm_size vm) ;;
    if negb available
    then logging WARNING (MsgSizeNotAvailable (vm_size vm) (location vm))
    else
      ids <- snapshot_and_collect source_rg vm ;;
      let '(os_disk_id, data_disk_ids, network_interface_id, size) := ids in
      delete_vm source_rg source_vm (zones vm) ;;
      create_vm desired_rg desired_vm desired_zone os_disk_id data_disk_ids
                network_interface_id size (location vm) os_type ;;
      start_vm desired_rg desired_vm ;;
      list_vm_disks vm ;;
      logging INFO MsgSeparator.

(** The body of the loop of [main] for one row. *)
Definition main_row (row : Row) : M W unit :=
  vm <- check_vm_exists (Source_Resource_Group_Name row) (Source_VM_Name row) ;;
  match vm with
  | Some vm => main_vm row vm
  | None => ret tt
  end.

(** [main], on the rows [read_csv] returned. *)
Definition main (csv_data : list Row) : M W unit :=
  for_each csv_data main_row.

End Script.

Arguments check_vm_exists {W}.
Arguments list_vm_disks {W}.
Arguments create_snapshot {W}.
Arguments delete_vm {W}.
Arguments create_vm {W}.
Arguments is_sku_available {W}.
Arguments check_sku_availability {W}.
Arguments start_vm {W}.
Arguments zone_in {W}.
Arguments first_nic_id {W}.
Arguments snapshot_and_collect {W}.
Arguments main_vm {W}.
Arguments main_row {W}.
Arguments main {W}.

(** ** Reading a run *)

(** The three components of a run. *)
Definition outcome_of {W A} (r : outcome A * W * list event) : outcome A := fst (fst r).
Definition world_of {W A} (r : outcome A * W * list event) : W := snd (fst r).
Definition trace_of {W A} (r : outcome A * W * list event) : list event := snd r.

(** The disks of a VM, in the order the script visits them: the OS disk, then
    the data disks. *)
Definition disks_of (vm : VirtualMachine) : list Disk :=
  os_disk (storage_profile vm) :: data_disks (storage_profile vm).

(** The events of the four mutating functions.  Each of them logs its own
    line and then sends its own request, so it has been invoked exactly when
    one of these events is in the trace. *)
Definition is_mutating (ev : event) : bool :=
  match ev with
  | Log _ (MsgCreatingSnapshot _ _) | Log _ (MsgSnapshotNotFound _ _ _)
  | Log _ (MsgDeletingVm _ _ _)
  | Log _ (MsgCreatingVm _ _ _) | Log _ (MsgCreateSkuNotAvailable _ _)
  | Log _ (MsgCreateError _ _)
  | Log _ (MsgStartingVm _ _) => true
  | Log _ _ => false
  | Call (VirtualMachinesGet _ _) _ | Call ResourceSkusList _ => false
  | Call _ _ => true
  end.

(** The snapshot submissions of a trace, in order: resource group, snapshot
    name, [Snapshot] object and what the submission raised. *)
Fixpoint snapshot_requests (tr : list event)
  : list (string * string * Snapshot * option exn) :=
  match tr with
  | [] => []
  | Call (SnapshotsBeginCreateOrUpdate rg n s) r :: rest =>
      (rg, n, s, r) :: snapshot_requests rest
  | _ :: rest => snapshot_requests rest
  end.

(** The VM-create submissions of a trace, in order. *)
Fixpoint create_requests (tr : list event) : list (string * string * VmParameters) :=
  match tr with
  | [] => []
  | Call (VirtualMachinesBeginCreateOrUpdate rg n p) _ :: rest =>
      (rg, n, p) :: create_requests rest
  | _ :: rest => create_requests rest
  end.

Definition is_snapshot_call (ev : event) : bool :=
  match ev with Call (SnapshotsBeginCreateOrUpdate _ _ _) _ => true | _ => false end.

(** The events of [delete_vm]. *)
Definition is_delete_event (ev : event) : bool :=
  match ev with
  | Log _ (MsgDeletingVm _ _ _)
  | Call (VirtualMachinesBeginDelete _ _) _
  | Call (DeleteOperationResult _ _) _ => true
  | _ => false
  end.

(** The events of [create_vm]. *)
Definition is_create_event (ev : event) : bool :=
  match ev with
  | Log _ (MsgCreatingVm _ _ _) | Log _ (MsgCreateSkuNotAvailable _ _)
  | Log _ (MsgCreateError _ _)
  | Call (VirtualMachinesBeginCreateOrUpdate _ _ _) _ => true
  | _ => false
  end.

Definition is_create_call (ev : event) : bool :=
  match ev with Call (VirtualMachinesBeginCreateOrUpdate _ _ _) _ => true | _ => false end.

(** [before P Q tr]: in [tr], every event satisfying [Q] comes after some
    event satisfying [P]. *)
Definition before (P : event -> Prop) (Q : event -> bool) (tr : list event) : Prop :=
  forall pre ev post, tr = pre ++ ev :: post -> Q ev = true ->
    exists ev', In ev' pre /\ P ev'.

(** The lines [list_vm_disks] logs. *)
Definition disk_lines (vm : VirtualMachine) : list event :=
  Log INFO (MsgOsDisk (disk_name (os_disk (storage_profile vm)))
                      (md_id (managed_disk (os_disk (storage_profile vm)))))
  :: map (fun disk => Log INFO (MsgDataDisk (disk_name disk) (md_id (managed_disk disk))))
         (data_disks (storage_profile vm)).

(** The exceptions the interpreter raises in [main]. *)
Definition type_error : exn := mkExn TypeError "argument of type 'NoneType' is not iterable".
Definition index_error : exn := mkExn IndexError "list index out of range".

(** The request [create_snapshot] sends for a disk at time [t]. *)
Definition snapshot_request (rg loc : string) (d : Disk) (t : datetime) : request :=
  SnapshotsBeginCreateOrUpdate rg
    (disk_name d ++ "-" ++ strftime_YmdHMS t)%string
    {| snap_location := loc;
       snap_create_option := "Copy";
       snap_source_resource_id := md_id (managed_disk d);
       snap_sku_name := "Standard_ZRS" |}.

(** What a submission may have raised for [create_snapshot] to return: nothing,
    or a [ResourceNotFoundError]. *)
Definition submitted_or_not_found (r : option exn) : Prop :=
  match r with
  | None => True
  | Some e => exn_cls e = ResourceNotFoundError
  end.

(** The events of one call of [create_snapshot] that returns. *)
Inductive snapshot_attempt (rg loc : string) (d : Disk) : list event -> Prop :=
| attempt_submitted (t : datetime) :
    snapshot_attempt rg loc d
      [Log INFO (MsgCreatingSnapshot (disk_name d)
                   (disk_name d ++ "-" ++ strftime_YmdHMS t)%string);
       Call (snapshot_request rg loc d t) None]
| attempt_not_found (t : datetime) (e : exn) :
    exn_cls e = ResourceNotFoundError ->
    snapshot_attempt rg loc d
      [Log INFO (MsgCreatingSnapshot (disk_name d)
                   (disk_name d ++ "-" ++ strftime_YmdHMS t)%string);
       Call (snapshot_request rg loc d t) (Some e);
       Log ERROR (MsgSnapshotNotFound (disk_name d) (md_id (managed_disk d)) rg)].

(** The events of the snapshot loop over a list of disks, when every call of
    [create_snapshot] returns. *)
Inductive snapshot_stage (rg loc : string) : list Disk -> list event -> Prop :=
| stage_nil : snapshot_stage rg loc [] []
| stage_cons d ds t1 t2 :
    snapshot_attempt rg loc d t1 ->
    snapshot_stage rg loc ds t2 ->
    snapshot_stage rg loc (d :: ds) (t1 ++ t2).

(** The events of the snapshot loop when a submission raises [e], an exception
    [create_snapshot] does not catch: the disks after it get no request. *)
Inductive snapshot_stage_aborted (rg loc : string)
  : list Disk -> exn -> list event -> Prop :=
| aborted_here d ds t e :
    exn_cls e <> ResourceNotFoundError ->
    snapshot_stage_aborted rg loc (d :: ds) e
      [Log INFO (MsgCreatingSnapshot (disk_name d)
                   (disk_name d ++ "-" ++ strftime_YmdHMS t)%string);
       Call (snapshot_request rg loc d t) (Some e)]
| aborted_later d ds e t1 t2 :
    snapshot_attempt rg loc d t1 ->
    snapshot_stage_aborted rg loc ds e t2 ->
    snapshot_stage_aborted rg loc (d :: ds) e (t1 ++ t2).

(** The events of the capacity check. *)
Inductive sku_check : bool -> list event -> Prop :=
| sku_answered b : sku_check b [Call ResourceSkusList None]
| sku_failed e :
    sku_check false [Call ResourceSkusList (Some e); Log ERROR (MsgSkuCheckError e)].

(** The events of a call of [create_vm] that returns. *)
Inductive create_returns (rg vm_name zone : string) (p : VmParameters)
  : list event -> Prop :=
| create_submitted :
    create_returns rg vm_name zone p
      [Log INFO (MsgCreatingVm vm_name rg zone);
       Call (VirtualMachinesBeginCreateOrUpdate rg vm_name p) None]
| create_conflicted e l m :
    exn_cls e = ResourceExistsError ->
    (l, m) = (if contains "SkuNotAvailable" (exn_str e)
              then (WARNING, MsgCreateSkuNotAvailable (p_vm_size p) (p_location p))
              else (ERROR, MsgCreateError vm_name e)) ->
    create_returns rg vm_name zone p
      [Log INFO (MsgCreatingVm vm_name rg zone);
       Call (VirtualMachinesBeginCreateOrUpdate rg vm_name p) (Some e);
       Log l m].

Section Runs.

Variable check_only : bool.
Variable row : Row.
Variable vm : VirtualMachine.
(** Whether the catalog, as the provider enumerates it at the capacity
    check, has an entry for the VM's size in the VM's location. *)
Variable in_catalog : Prop.

Let source_rg := Source_Resource_Group_Name row.
Let source_vm := Source_VM_Name row.
Let desired_rg := Desired_Resource_Group_Name row.
Let desired_vm := Desired_VM_Name row.
Let desired_zone := Desired_Zone row.

(** What [main] logs for a VM before the zone gate. *)
Definition inspected : list event :=
  Log INFO (MsgVmExists (Source_VM_Name row) (Source_Resource_Group_Name row) (zones vm))
  :: disk_lines vm.

(** The create request of a row for a VM whose first network interface is
    [nic]: the zone and the OS type come from the row, everything else from
    the VM. *)
Definition request_for (nic : NetworkInterfaceReference) : VmParameters :=
  vm_parameters (Desired_Zone row)
    (md_id (managed_disk (os_disk (storage_profile vm))))
    (map (fun disk => md_id (managed_disk disk)) (data_disks (storage_profile vm)))
    (nic_id nic) (vm_size vm) (location vm) (os_type_of row).

Definition deleted : list event :=
  [Log INFO (MsgDeletingVm source_vm source_rg (zones vm));
   Call (VirtualMachinesBeginDelete source_rg source_vm) None;
   Call (DeleteOperationResult source_rg source_vm) None].

(** Every way the body of [if vm:] can run: how it ends, and its events. *)
Inductive main_vm_run : outcome unit -> list event -> Prop :=
| run_no_zones :
    zones vm = None ->
    main_vm_run (Raise type_error) inspected
| run_same_zone zs :
    zones vm = Some zs -> str_in desired_zone zs = true ->
    main_vm_run (Return tt) (inspected ++ [Log WARNING (MsgSameZone desired_zone)])
| run_check_only zs :
    zones vm = Some zs -> str_in desired_zone zs = false ->
    check_only = true ->
    main_vm_run (Return tt) inspected
| run_unavailable zs t :
    zones vm = Some zs -> str_in desired_zone zs = false ->
    check_only = false ->
    sku_check false t ->
    main_vm_run (Return tt)
      (inspected ++ t ++ [Log WARNING (MsgSizeNotAvailable (vm_size vm) (location vm))])
| run_snapshot_aborted zs e t :
    zones vm = Some zs -> str_in desired_zone zs = false ->
    check_only = false -> in_catalog ->
    snapshot_stage_aborted source_rg (location vm) (disks_of vm) e t ->
    main_vm_run (SysExit 1)
      (inspected ++ [Call ResourceSkusList None] ++ t ++ [Log ERROR (MsgErrorOccurred e)])
| run_no_nic zs t :
    zones vm = Some zs -> str_in desired_zone zs = false ->
    check_only = false -> in_catalog ->
    snapshot_stage source_rg (location vm) (disks_of vm) t ->
    network_interfaces vm = [] ->
    main_vm_run (SysExit 1)
      (inspected ++ [Call ResourceSkusList None] ++ t
       ++ [Log ERROR (MsgErrorOccurred index_error)])
| run_delete_refused zs t nic nics e :
    zones vm = Some zs -> str_in desired_zone zs = false ->
    check_only = false -> in_catalog ->
    snapshot_stage source_rg (location vm) (disks_of vm) t ->
    network_interfaces vm = nic :: nics ->
    main_vm_run (Raise e)
      (inspected ++ [Call ResourceSkusList None] ++ t
       ++ [Log INFO (MsgDeletingVm source_vm source_rg (zones vm));
           Call (VirtualMachinesBeginDelete source_rg source_vm) (Some e)])
| run_delete_failed zs t nic nics e :
    zones vm = Some zs -> str_in desired_zone zs = false ->
    check_only = false -> in_catalog ->
    snapshot_stage source_rg (location vm) (disks_of vm) t ->
    network_interfaces vm = nic :: nics ->
    main_vm_run (Raise e)
      (inspected ++ [Call ResourceSkusList None] ++ t
       ++ [Log INFO (MsgDeletingVm source_vm source_rg (zones vm));
           Call (VirtualMachinesBeginDelete source_rg source_vm) None;
           Call (DeleteOperationResult source_rg source_vm) (Some e)])
| run_create_raised zs t nic nics e :
    zones vm = Some zs -> str_in desired_zone zs = false ->
    check_only = false -> in_catalog ->
    snapshot_stage source_rg (location vm) (disks_of vm) t ->
    network_interfaces vm = nic :: nics ->
    exn_cls e <> ResourceExistsError ->
    main_vm_run (Raise e)
      (inspected ++ [Call ResourceSkusList None] ++ t ++ deleted
       ++ [Log INFO (MsgCreatingVm desired_vm desired_rg desired_zone);
           Call (VirtualMachinesBeginCreateOrUpdate desired_rg desired_vm
                   (request_for nic)) (Some e)])
| run_start_raised zs t nic nics tc e :
    zones vm = Some zs -> str_in desired_zone zs = false ->
    check_only = false -> in_catalog ->
    snapshot_stage source_rg (location vm) (disks_of vm) t ->
    network_interfaces vm = nic :: nics ->
    create_returns desired_rg desired_vm desired_zone (request_for nic) tc ->
    main_vm_run (Raise e)
      (inspected ++ [Call ResourceSkusList None] ++ t ++ deleted ++ tc
       ++ [Log INFO (MsgStartingVm desired_vm desired_rg);
           Call (VirtualMachinesBeginStart desired_rg desired_vm) (Some e)])
| run_migrated zs t nic nics tc :
    zones vm = Some zs -> str_in desired_zone zs = false ->
    check_only = false -> in_catalog ->
    snapshot_stage source_rg (location vm) (disks_of vm) t ->
    network_interfaces vm = nic :: nics ->
    create_returns desired_rg desired_vm desired_zone (request_for nic) tc ->
    main_vm_run (Return tt)
      (inspected ++ [Call ResourceSkusList None] ++ t ++ deleted ++ tc
       ++ [Log INFO (MsgStartingVm desired_vm desired_rg);
           Call (VirtualMachinesBeginStart desired_rg desired_vm) None]
       ++ disk_lines vm ++ [Log INFO MsgSeparator]).

End Runs.

(** ** What the properties of a run say *)

Definition is_start_call (ev : event) : bool :=
  match ev with Call (VirtualMachinesBeginStart _ _) _ => true | _ => false end.






(** The request [q] is the snapshot request for the disk [d]. *)
Definition snapshot_of_disk (rg loc : string) (d : Disk)
    (q : string * string * Snapshot * option exn) : Prop :=
  exists t r,
    q = (rg, (disk_name d ++ "-" ++ strftime_YmdHMS t)%string,
         {| snap_location := loc;
            snap_create_option := "Copy";
            snap_source_resource_id := md_id (managed_disk d);
            snap_sku_name := "Standard_ZRS" |}, r).

(** The names of the snapshots requested in a trace. *)
Definition snapshot_names (tr : list event) : list string :=
  map (fun q => snd (fst (fst q))) (snapshot_requests tr).

(** A run has reached the snapshot stage when it has sent a snapshot request:
    the stage begins with [create_snapshot] on the OS disk. *)
Definition reaches_snapshot_stage (tr : list event) : Prop :=
  snapshot_requests tr <> [].

(** No snapshot submission raised an exception other than
    [ResourceNotFoundError]. *)
Definition no_snapshot_refused (tr : list event) : Prop :=
  Forall (fun q => submitted_or_not_found (snd q)) (snapshot_requests tr).

(** The snapshot requests of the trace are those of the disks of the VM, one
    for each disk and in their order. *)
Definition one_request_per_disk (rg : string) (vm : VirtualMachine)
    (tr : list event) : Prop :=
  Forall2 (snapshot_of_disk rg (location vm)) (disks_of vm) (snapshot_requests tr).

(** Everything in the create request but the zone is the source VM's: location,
    size, disks and network interfaces. *)
Definition target_keeps_source (vm : VirtualMachine) (p : VmParameters) : Prop :=
  p_location p = location vm
  /\ p_vm_size p = vm_size vm
  /\ osd_managed_disk_id (p_os_disk p) = md_id (managed_disk (os_disk (storage_profile vm)))
  /\ map dd_managed_disk_id (p_data_disks p)
     = map (fun d => md_id (managed_disk d)) (data_disks (storage_profile vm))
  /\ p_network_interfaces p = map nic_id (network_interfaces vm).

(** Two rows that name the same source VM and the same target. *)
Definition same_move (r1 r2 : Row) : Prop :=
  Source_Resource_Group_Name r1 = Source_Resource_Group_Name r2
  /\ Source_VM_Name r1 = Source_VM_Name r2
  /\ Desired_Resource_Group_Name r1 = Desired_Resource_Group_Name r2
  /\ Desired_VM_Name r1 = Desired_VM_Name r2
  /\ Desired_Zone r1 = Desired_Zone r2.

(** ** A scripted provider, for concrete runs *)

(** The state of the world is the clock, in seconds after 2024-01-01 00:00:00
    (within that day); the provider answers from a fixed script and no call
    takes time. *)
Record Script : Type := mkScript {
  s_vm : result VirtualMachine;
  s_skus : SkuIterator;
  s_snapshot : result unit;
  s_begin_delete : result unit;
  s_delete_result : result unit;
  s_create : result unit;
  s_start : result unit
}.

Definition clock (w : nat) : datetime :=
  {| year := 2024; month := 1; day := 1;
     hour := (w / 3600) mod 24; minute := (w / 60) mod 60; second := w mod 60 |}.

Definition scripted (s : Script) : ComputeManagementClient nat :=
  {| virtual_machines_get := fun _ _ w => (s_vm s, w);
     resource_skus_list := fun w => (s_skus s, w);
     snapshots_begin_create_or_update := fun _ _ _ w => (s_snapshot s, w);
     virtual_machines_begin_delete := fun _ _ w =>
       (match s_begin_delete s with
        | inl _ => inl (fun w' => (s_delete_result s, w'))
        | inr e => inr e
        end, w);
     virtual_machines_begin_create_or_update := fun _ _ _ w => (s_create s, w);
     virtual_machines_begin_start := fun _ _ w => (s_start s, w);
     datetime_now := fun w => (clock w, w) |}.

Definition disk_os : Disk := mkDisk "vm1-os" (mkManagedDisk "/disks/vm1-os" "Premium_LRS").
Definition disk_d1 : Disk := mkDisk "vm1-d1" (mkManagedDisk "/disks/vm1-d1" "StandardSSD_LRS").

(** A VM in zone 1 with an OS disk, one data disk and one network interface. *)
Definition vm1 : VirtualMachine :=
  {| location := "eastus";
     zones := Some ["1"];
     vm_size := "Standard_D2s_v3";
     storage_profile := mkStorageProfile disk_os [disk_d1];
     network_interfaces := [mkNic "/nics/vm1-nic"] |}.

(** The same VM, pinned to no zone. *)
Definition vm1_regional : VirtualMachine :=
  {| location := "eastus";
     zones := None;
     vm_size := "Standard_D2s_v3";
     storage_profile := mkStorageProfile disk_os [disk_d1];
     network_interfaces := [mkNic "/nics/vm1-nic"] |}.

(** A VM whose data disk has the name of its OS disk. *)
Definition vm1_same_names : VirtualMachine :=
  {| location := "eastus";
     zones := Some ["1"];
     vm_size := "Standard_D2s_v3";
     storage_profile :=
       mkStorageProfile disk_os [mkDisk "vm1-os" (mkManagedDisk "/disks/other" "Premium_LRS")];
     network_interfaces := [mkNic "/nics/vm1-nic"] |}.

Definition catalog : SkuIterator :=
  ([mkSku "Standard_B1s" ["eastus"; "westus"];
    mkSku "Standard_D2s_v3" ["westus"];
    mkSku "Standard_D2s_v3" ["eastus"]], None).

(** Move [vm1] to zone 2. *)
Definition row_to_2 : Row :=
  mkRow "rg-src" "vm1" " Linux " "rg-dst" "vm1-z2" "2".

(** The same move, with the OS type column saying Windows. *)
Definition row_to_2_windows : Row :=
  mkRow "rg-src" "vm1" "Windows" "rg-dst" "vm1-z2" "2".

(** [vm1] is already in zone 1. *)
Definition row_to_1 : Row :=
  mkRow "rg-src" "vm1" "linux" "rg-dst" "vm1-z1" "1".

Definition ok : result unit := inl tt.

(** Every call succeeds. *)
Definition happy : Script := mkScript (inl vm1) catalog ok ok ok ok ok.

Definition bad_request : exn := mkExn HttpResponseError "(BadRequest) SKU Standard_ZRS is not supported.".


(** Every snapshot submission is refused with another error. *)
Definition snapshots_refused : Script := mkScript (inl vm1) catalog (inr bad_request) ok ok ok ok.

(** The VM-create submission fails with an error that is not a conflict. *)
Definition create_refused : Script := mkScript (inl vm1) catalog ok ok ok (inr bad_request) ok.


(** [vm1] with a second network interface. *)
Definition vm1_two_nics : VirtualMachine :=
  {| location := "eastus";
     zones := Some ["1"];
     vm_size := "Standard_D2s_v3";
     storage_profile := mkStorageProfile disk_os [disk_d1];
     network_interfaces := [mkNic "/nics/vm1-nic"; mkNic "/nics/vm1-nic2"] |}.

(** Every call succeeds, on each of the other VMs. *)
Definition happy_regional : Script := mkScript (inl vm1_regional) catalog ok ok ok ok ok.
Definition happy_same_names : Script := mkScript (inl vm1_same_names) catalog ok ok ok ok ok.
Definition happy_two_nics : Script := mkScript (inl vm1_two_nics) catalog ok ok ok ok ok.

(** The enumeration of the catalog fails on its first page. *)
Definition throttled : exn := mkExn HttpResponseError "(TooManyRequests) Retry later.".
Definition catalog_down : Script :=
  mkScript (inl vm1) ([], Some throttled) ok ok ok ok ok.


(** ** The rest of the script *)

(** More events to look for in a trace. *)
Definition is_begin_delete (ev : event) : bool :=
  match ev with Call (VirtualMachinesBeginDelete _ _) _ => true | _ => false end.

Definition is_skus_call (ev : event) : bool :=
  match ev with Call ResourceSkusList _ => true | _ => false end.

(** A call of [delete_vm] or of [start_vm] that raised: no [except] clause
    encloses these calls. *)
Definition is_uncaught_failure (ev : event) : bool :=
  match ev with
  | Call (VirtualMachinesBeginDelete _ _) (Some _)
  | Call (DeleteOperationResult _ _) (Some _)
  | Call (VirtualMachinesBeginStart _ _) (Some _) => true
  | _ => false
  end.

(** How many events of a trace satisfy [Q]. *)
Definition count (Q : event -> bool) (tr : list event) : nat := length (filter Q tr).

(** The fields of a [datetime] are within their ranges. *)
Definition well_formed (t : datetime) : Prop :=
  year t < 10 * 1000 /\ month t <= 12 /\ day t <= 31
  /\ hour t <= 23 /\ minute t <= 59 /\ second t <= 59.

(** A row as [csv.DictReader] yields it, for a line that has a field for
    every column of the header: the column names with their values. *)
Definition DictRow : Type := list (string * string).

Fixpoint dict_get (k : string) (d : DictRow) : option string :=
  match d with
  | [] => None
  | (k', v) :: rest => if String.eqb k k' then Some v else dict_get k rest
  end.

(** [KeyError(k)], one of the other exception classes; its text is the key
    between quotes. *)
Definition key_error (k : string) : exn :=
  mkExn OtherException ("'" ++ k ++ "'")%string.

(** [d[k]]. *)
Definition subscript {W} (d : DictRow) (k : string) : M W string :=
  match dict_get k d with
  | Some v => ret v
  | None => raise (key_error k)
  end.

(** The first lines of the loop of [main] (lines 247-252): the six columns
    are read in this order, before anything else is done for the row. *)
Definition read_row {W} (d : DictRow) : M W Row :=
  source_rg <- subscript d "#Source Resource Group Name" ;;
  source_vm <- subscript d "Source VM Name" ;;
  source_os_type <- subscript d "Source OS Type" ;;
  desired_rg <- subscript d "Desired Resource Group Name" ;;
  desired_vm <- subscript d "Desired VM Name" ;;
  desired_zone <- subscript d "Desired Zone" ;;
  ret (mkRow source_rg source_vm source_os_type desired_rg desired_vm desired_zone).

(** The loop of [main] on the rows as [read_csv] returns them. *)
Definition main_csv {W} (compute_client : ComputeManagementClient W) (check_only : bool)
    (csv_data : list DictRow) : M W unit :=
  for_each csv_data
    (fun d => row <- read_row d ;; main_row compute_client check_only row).

(** The columns [main] reads. *)
Definition columns : list string :=
  ["#Source Resource Group Name"; "Source VM Name"; "Source OS Type";
   "Desired Resource Group Name"; "Desired VM Name"; "Desired Zone"].

(** The [Row] of a dictionary that has the six columns (empty fields where it
    has not). *)
Definition row_of (d : DictRow) : Row :=
  let field k := match dict_get k d with Some v => v | None => "" end in
  mkRow (field "#Source Resource Group Name") (field "Source VM Name")
        (field "Source OS Type") (field "Desired Resource Group Name")
        (field "Desired VM Name") (field "Desired Zone").

(** *** Before [main]: the login check and the CSV file *)

(** What [subprocess.run(['az', 'account', 'show'], check=True)] does: it
    completes, raises [CalledProcessError] (the command failed), raises
    [FileNotFoundError] (no [az] on the path), or raises something else. *)
Inductive az_result : Set :=
| AzCompleted
| AzCalledProcessError
| AzFileNotFoundError
| AzRaised (e : exn).

(** What opening and reading the CSV file does: the rows, a
    [FileNotFoundError] with its text, or another exception. *)
Inductive open_result : Type :=
| Opened (rows : list DictRow)
| OpenFileNotFoundError (msg : string)
| OpenRaised (e : exn).

(** The machine the script runs on. *)
Record Host (W : Type) : Type := mkHost {
  az_account_show : W -> az_result * W;
  open_csv : string -> W -> open_result * W
}.

Arguments az_account_show {W}.
Arguments open_csv {W}.

(** The log lines of [check_azure_login] and [read_csv]. *)
Inductive startup_message : Set :=
| MsgNotLoggedIn
| MsgCliNotInstalled
| MsgCsvError (msg : string).

(** An event of the whole script: a line of the start-up, or an event of
    [main]. *)
Inductive script_event : Set :=
| Startup (l : level) (m : startup_message)
| Migration (ev : event).

Definition check_azure_login {W} (host : Host W) (w : W)
  : outcome unit * W * list script_event :=
  match az_account_show host w with
  | (AzCompleted, w1) => (Return tt, w1, [])
  | (AzCalledProcessError, w1) => (SysExit 1, w1, [Startup ERROR MsgNotLoggedIn])
  | (AzFileNotFoundError, w1) => (SysExit 1, w1, [Startup ERROR MsgCliNotInstalled])
  | (AzRaised e, w1) => (Raise e, w1, [])
  end.

Definition read_csv {W} (host : Host W) (file_path : string) (w : W)
  : outcome (list DictRow) * W * list script_event :=
  match open_csv host file_path w with
  | (Opened rows, w1) => (Return rows, w1, [])
  | (OpenFileNotFoundError msg, w1) => (SysExit 1, w1, [Startup ERROR (MsgCsvError msg)])
  | (OpenRaised e, w1) => (Raise e, w1, [])
  end.

(** The script from the login check on: [check_azure_login()] at module
    level, then [main()], which reads the CSV file and runs its loop.  (The
    parsing of the command line and the construction of the credential and of
    the client are left out.) *)
Definition script {W} (host : Host W) (compute_client : ComputeManagementClient W)
    (check_only : bool) (csv_file_path : string) (w : W)
  : outcome unit * W * list script_event :=
  match check_azure_login host w with
  | (Return _, w1, t1) =>
      match read_csv host csv_file_path w1 with
      | (Return csv_data, w2, t2) =>
          match main_csv compute_client check_only csv_data w2 with
          | (o, w3, t3) => (o, w3, t1 ++ t2 ++ map Migration t3)
          end
      | (Raise e, w2, t2) => (Raise e, w2, t1 ++ t2)
      | (SysExit c, w2, t2) => (SysExit c, w2, t1 ++ t2)
      end
  | (Raise e, w1, t1) => (Raise e, w1, t1)
  | (SysExit c, w1, t1) => (SysExit c, w1, t1)
  end.

(** *** More scripted providers and rows *)

Definition gone : exn := mkExn ResourceNotFoundError "(ResourceNotFound) The VM was not found.".

(** The provider does not know the VM. *)
Definition vm_missing : Script := mkScript (inr gone) catalog ok ok ok ok ok.

(** A catalog without the size of [vm1] in eastus. *)
Definition small_catalog : SkuIterator :=
  ([mkSku "Standard_B1s" ["eastus"]; mkSku "Standard_D2s_v3" ["westus"]], None).
Definition size_unavailable : Script := mkScript (inl vm1) small_catalog ok ok ok ok ok.

(** [vm1] without a network interface. *)
Definition vm1_no_nic : VirtualMachine :=
  {| location := "eastus";
     zones := Some ["1"];
     vm_size := "Standard_D2s_v3";
     storage_profile := mkStorageProfile disk_os [disk_d1];
     network_interfaces := [] |}.
Definition happy_no_nic : Script := mkScript (inl vm1_no_nic) catalog ok ok ok ok ok.

Definition busy : exn := mkExn HttpResponseError "(Conflict) The VM is being updated.".

(** The delete operation fails while the script waits for it. *)
Definition delete_fails : Script := mkScript (inl vm1) catalog ok ok (inr busy) ok ok.

(** The start submission fails. *)
Definition start_fails : Script := mkScript (inl vm1) catalog ok ok ok ok (inr busy).

(** The row [row_to_2] as a dictionary, and the same without its zone. *)
Definition dict_to_2 : DictRow :=
  [("#Source Resource Group Name", "rg-src"); ("Source VM Name", "vm1");
   ("Source OS Type", " Linux "); ("Desired Resource Group Name", "rg-dst");
   ("Desired VM Name", "vm1-z2"); ("Desired Zone", "2")].

(** A host where [az] is logged in and the file [moves.csv] has one row. *)
Definition host_ready : Host nat :=
  {| az_account_show := fun w => (AzCompleted, w);
     open_csv := fun path w =>
       (if String.eqb path "moves.csv" then Opened [dict_to_2]
        else OpenFileNotFoundError "[Errno 2] No such file or directory", w) |}.

(** * Proofs *)

(** ** Stepping through the monad *)

Section Steps.

Context {W : Type}.

Lemma ret_inv {A} (a : A) (w : W) o w' t :
  ret a w = (o, w', t) -> o = Return a /\ w' = w /\ t = [].
Proof. unfold ret. intros H. inversion H. auto. Qed.

Lemma logging_inv l m (w : W) o w' t :
  logging l m w = (o, w', t) -> o = Return tt /\ w' = w /\ t = [Log l m].
Proof. unfold logging. intros H. inversion H. auto. Qed.

Lemma call_inv {A} r (f : W -> result A * W) w o w' t :
  call r f w = (o, w', t) ->
  (exists a, f w = (inl a, w') /\ o = Return a /\ t = [Call r None])
  \/ (exists e, f w = (inr e, w') /\ o = Raise e /\ t = [Call r (Some e)]).
Proof.
  unfold call. destruct (f w) as [[a | e] w1]; intros H; inversion H; subst.
  - left. exists a. auto.
  - right. exists e. auto.
Qed.

Lemma bind_inv {A B} (m : M W A) (f : A -> M W B) w o w' t :
  bind m f w = (o, w', t) ->
  (exists a w1 t1 t2,
      m w = (Return a, w1, t1) /\ f a w1 = (o, w', t2) /\ t = t1 ++ t2)
  \/ (exists e, m w = (Raise e, w', t) /\ o = Raise e)
  \/ (exists c, m w = (SysExit c, w', t) /\ o = SysExit c).
Proof.
  unfold bind. destruct (m w) as [[[a | e | c] w1] t1].
  - destruct (f a w1) as [[o2 w2] t2] eqn:E. intros H. inversion H; subst.
    left. exists a, w1, t1, t2. auto.
  - intros H. inversion H; subst. right. left. exists e. auto.
  - intros H. inversion H; subst. right. right. exists c. auto.
Qed.

Lemma try_except_inv {A} (body : M W A) catches handler w o w' t :
  try_except body catches handler w = (o, w', t) ->
  (exists e w1 t1 t2,
      body w = (Raise e, w1, t1) /\ catches e = true
      /\ handler e w1 = (o, w', t2) /\ t = t1 ++ t2)
  \/ (body w = (o, w', t) /\ forall e, o = Raise e -> catches e = false).
Proof.
  unfold try_except. destruct (body w) as [[[a | e | c] w1] t1].
  - intros H. inversion H; subst. right. split; [reflexivity | discriminate].
  - destruct (catches e) eqn:C.
    + destruct (handler e w1) as [[o2 w2] t2] eqn:E. intros H. inversion H; subst.
      left. exists e, w1, t1, t2. auto.
    + intros H. inversion H; subst. right. split; [reflexivity |].
      intros e' He'. inversion He'; subst. exact C.
  - intros H. inversion H; subst. right. split; [reflexivity | discriminate].
Qed.

Lemma bind_assoc {A B C} (m : M W A) (f : A -> M W B) (g : B -> M W C) w :
  bind (bind m f) g w = bind m (fun x => bind (f x) g) w.
Proof.
  unfold bind. destruct (m w) as [[[a | e | c] w1] t1]; try reflexivity.
  destruct (f a w1) as [[[b | e | c] w2] t2]; try reflexivity.
  destruct (g b w2) as [[o3 w3] t3]. now rewrite app_assoc.
Qed.

(** A loop of log lines. *)
Lemma for_each_logging {A} (l : list A) lvl (msg : A -> message) (w : W) :
  for_each l (fun x => logging lvl (msg x)) w
  = (Return tt, w, map (fun x => Log lvl (msg x)) l).
Proof.
  induction l as [| x l IH]; [reflexivity |].
  simpl. unfold bind at 1. simpl. rewrite IH. reflexivity.
Qed.

End Steps.

(** ** The trace relations *)

Lemma isinstance_true e c : isinstance e c = true <-> exn_cls e = c.
Proof.
  unfold isinstance. destruct (exn_cls e), c; simpl; split; congruence.
Qed.

Lemma isinstance_false e c : isinstance e c = false <-> exn_cls e <> c.
Proof.
  unfold isinstance. destruct (exn_cls e), c; simpl; split; congruence.
Qed.

Lemma str_in_In x l : str_in x l = true <-> In x l.
Proof.
  unfold str_in. rewrite existsb_exists. split.
  - intros (y & Hy & E). apply String.eqb_eq in E. now subst.
  - intros H. exists x. split; [exact H | apply String.eqb_refl].
Qed.

Lemma disk_lines_Forall (P : event -> Prop) vm :
  (forall n i, P (Log INFO (MsgOsDisk n i))) ->
  (forall n i, P (Log INFO (MsgDataDisk n i))) ->
  Forall P (disk_lines vm).
Proof.
  intros Hos Hdata. unfold disk_lines. constructor; [apply Hos |].
  apply Forall_forall. intros ev Hin. apply in_map_iff in Hin.
  destruct Hin as (d & <- & _). apply Hdata.
Qed.

Lemma snapshot_attempt_Forall (P : event -> Prop) rg loc d t :
  (forall a b, P (Log INFO (MsgCreatingSnapshot a b))) ->
  (forall a b c, P (Log ERROR (MsgSnapshotNotFound a b c))) ->
  (forall a b c r, P (Call (SnapshotsBeginCreateOrUpdate a b c) r)) ->
  snapshot_attempt rg loc d t -> Forall P t.
Proof.
  intros Hl He Hc H. destruct H; repeat constructor; auto; apply Hc.
Qed.

Lemma snapshot_stage_Forall (P : event -> Prop) rg loc ds t :
  (forall a b, P (Log INFO (MsgCreatingSnapshot a b))) ->
  (forall a b c, P (Log ERROR (MsgSnapshotNotFound a b c))) ->
  (forall a b c r, P (Call (SnapshotsBeginCreateOrUpdate a b c) r)) ->
  snapshot_stage rg loc ds t -> Forall P t.
Proof.
  intros Hl He Hc H. induction H; [constructor |].
  apply Forall_app. split; [| assumption].
  eapply snapshot_attempt_Forall; eauto.
Qed.

Lemma snapshot_stage_aborted_Forall (P : event -> Prop) rg loc ds e t :
  (forall a b, P (Log INFO (MsgCreatingSnapshot a b))) ->
  (forall a b c, P (Log ERROR (MsgSnapshotNotFound a b c))) ->
  (forall a b c r, P (Call (SnapshotsBeginCreateOrUpdate a b c) r)) ->
  snapshot_stage_aborted rg loc ds e t -> Forall P t.
Proof.
  intros Hl He Hc H. induction H.
  - repeat constructor; auto. apply Hc.
  - apply Forall_app. split; [| assumption].
    eapply snapshot_attempt_Forall; eauto.
Qed.

(** ** The functions of the script, one by one *)

Section Functions.

Context {W : Type}.
Variable client : ComputeManagementClient W.

Lemma list_vm_disks_run vm (w : W) :
  list_vm_disks vm w = (Return tt, w, disk_lines vm).
Proof.
  unfold list_vm_disks, disk_lines, bind. simpl.
  rewrite for_each_logging. reflexivity.
Qed.

(** [check_vm_exists] never raises: it returns the VM the provider returned,
    or [None] after a warning or an error line. *)
Lemma check_vm_exists_cases rg name w o w' t :
  check_vm_exists client rg name w = (o, w', t) ->
  (exists vm, virtual_machines_get client rg name w = (inl vm, w')
              /\ o = Return (Some vm)
              /\ t = [Call (VirtualMachinesGet rg name) None;
                      Log INFO (MsgVmSku name rg (vm_size vm))])
  \/ (exists e l m, virtual_machines_get client rg name w = (inr e, w')
              /\ o = Return None
              /\ t = [Call (VirtualMachinesGet rg name) (Some e); Log l m]
              /\ is_mutating (Log l m) = false).
Proof.
  unfold check_vm_exists, try_except, bind, call, logging, ret, any_exception.
  destruct (virtual_machines_get client rg name w) as [[vm | e] w1]; simpl.
  - intros H. inversion H; subst. left. exists vm. auto.
  - destruct (contains "ResourceNotFound" (exn_str e)); simpl;
      intros H; inversion H; subst; right; do 3 eexists; eauto.
Qed.

(** [create_snapshot] either returns, after a submission that was accepted or
    that raised [ResourceNotFoundError], or lets another exception through. *)
Lemma create_snapshot_cases rg d loc st w o w' t :
  create_snapshot client rg (disk_name d) (md_id (managed_disk d)) loc st w = (o, w', t) ->
  (o = Return tt /\ snapshot_attempt rg loc d t)
  \/ (exists e, o = Raise e /\ snapshot_stage_aborted rg loc [d] e t).
Proof.
  unfold create_snapshot, try_except, bind, call, logging, lift, snapshot_name_of.
  destruct (datetime_now client w) as [now w1]; simpl.
  fold (snapshot_request rg loc d now).
  destruct (snapshots_begin_create_or_update client rg _ _ w1) as [[[] | e] w2]; simpl.
  - intros H. inversion H; subst. left. split; [reflexivity | constructor].
  - destruct (isinstance e ResourceNotFoundError) eqn:I; intros H; inversion H; subst.
    + left. split; [reflexivity |]. apply attempt_not_found.
      now apply isinstance_true.
    + right. exists e. split; [reflexivity |]. apply aborted_here.
      now apply isinstance_false.
Qed.

(** The snapshot loop over a list of disks. *)
Lemma snapshot_loop_cases rg loc (ds : list Disk) w o w' t :
  for_each ds
    (fun disk => create_snapshot client rg (disk_name disk) (md_id (managed_disk disk))
                                 loc (md_storage_account_type (managed_disk disk)))
    w = (o, w', t) ->
  (o = Return tt /\ snapshot_stage rg loc ds t)
  \/ (exists e, o = Raise e /\ snapshot_stage_aborted rg loc ds e t).
Proof.
  revert w o w' t. induction ds as [| d ds IH]; intros w o w' t H.
  - simpl in H. apply ret_inv in H as (-> & _ & ->).
    left. split; [reflexivity | constructor].
  - simpl in H.
    apply bind_inv in H as [(a & w1 & t1 & t2 & Hd & Hds & ->)
                           | [(e & Hd & ->) | (c & Hd & ->)]];
      apply create_snapshot_cases in Hd as [[Hr Hat] | (e' & He & Hab)];
      try discriminate.
    + apply IH in Hds as [[-> Hst] | (e & -> & Hab)].
      * left. split; [reflexivity | now constructor].
      * right. exists e. split; [reflexivity | now apply aborted_later].
    + inversion He; subst e'. right. exists e. split; [reflexivity |].
      inversion Hab; subst.
      * now apply aborted_here.
      * match goal with H : snapshot_stage_aborted _ _ [] _ _ |- _ => inversion H end.
Qed.

(** The [try] block of [main]: it returns the identifiers read from the VM
    after a complete snapshot stage, or ends the run with [sys.exit(1)]. *)
Lemma snapshot_and_collect_cases rg vm w o w' t :
  snapshot_and_collect client rg vm w = (o, w', t) ->
  (exists nic nics,
      network_interfaces vm = nic :: nics
      /\ o = Return (md_id (managed_disk (os_disk (storage_profile vm))),
                     map (fun disk => md_id (managed_disk disk))
                         (data_disks (storage_profile vm)),
                     nic_id nic, vm_size vm)
      /\ snapshot_stage rg (location vm) (disks_of vm) t)
  \/ (exists e t1,
      o = SysExit 1 /\ snapshot_stage_aborted rg (location vm) (disks_of vm) e t1
      /\ t = t1 ++ [Log ERROR (MsgErrorOccurred e)])
  \/ (exists t1,
      network_interfaces vm = [] /\ o = SysExit 1
      /\ snapshot_stage rg (location vm) (disks_of vm) t1
      /\ t = t1 ++ [Log ERROR (MsgErrorOccurred index_error)]).
Proof.
  unfold snapshot_and_collect. intros H.
  apply try_except_inv in H
    as [(e & w1 & t1 & t2 & Hbody & _ & Hh & ->) | [Hbody Hno]];
    rewrite <- bind_assoc in Hbody;
    apply bind_inv in Hbody as [(a & w2 & t3 & t4 & Hloop & Hrest & Ht)
                               | [(e' & Hloop & He') | (c & Hloop & Hc)]];
    apply (snapshot_loop_cases rg (location vm) (disks_of vm)) in Hloop
      as [[Hr Hst] | (e2 & He2 & Hab)];
    try discriminate.
  - (* the loop returned and a later statement raised: no network interface *)
    unfold bind, logging, sys_exit in Hh. simpl in Hh. inversion Hh; subst.
    destruct (network_interfaces vm) as [| nic nics] eqn:N;
      unfold bind, first_nic_id, raise, ret in Hrest; simpl in Hrest;
      inversion Hrest; subst.
    right. right. exists t3. rewrite app_nil_r. auto.
  - (* a submission raised *)
    unfold bind, logging, sys_exit in Hh. simpl in Hh. inversion Hh; subst.
    inversion He'; subst. inversion He2; subst.
    right. left. exists e2, t1. auto.
  - (* nothing raised *)
    destruct (network_interfaces vm) as [| nic nics] eqn:N;
      unfold bind, first_nic_id, raise, ret in Hrest; simpl in Hrest;
      inversion Hrest; subst.
    + discriminate (Hno _ eq_refl).
    + left. exists nic, nics. rewrite !app_nil_r. auto.
  - subst o. inversion He2; subst. discriminate (Hno _ eq_refl).
Qed.

(** What the loop of [is_sku_available] answers. *)
Lemma scan_skus_true loc size items stop :
  scan_skus loc size items stop = Return true
  <-> exists sku, In sku items /\ sku_matches loc size sku = true.
Proof.
  induction items as [| sku items IH]; simpl.
  - split.
    + destruct stop; discriminate.
    + intros (sku & [] & _).
  - destruct (sku_matches loc size sku) eqn:E.
    + split; [| reflexivity]. intros _. exists sku. auto.
    + rewrite IH. split.
      * intros (s & Hin & Hs). exists s. auto.
      * intros (s & [-> | Hin] & Hs); [congruence | exists s; auto].
Qed.

Lemma scan_skus_outcome loc size items stop :
  scan_skus loc size items stop = Return true
  \/ scan_skus loc size items stop = Return false
  \/ exists e, scan_skus loc size items stop = Raise e /\ stop = Some e.
Proof.
  induction items as [| sku items IH]; simpl.
  - destruct stop as [e |]; [right; right; exists e |]; auto.
  - destruct (sku_matches loc size sku); auto.
Qed.

Lemma sku_matches_true loc size sku :
  sku_matches loc size sku = true
  <-> sku_name sku = size /\ In loc (sku_locations sku).
Proof.
  unfold sku_matches. rewrite andb_true_iff, String.eqb_eq, str_in_In. reflexivity.
Qed.

(** [is_sku_available] never raises; it answers what the loop answers, and
    [False] when the enumeration raises. *)
Lemma is_sku_available_run loc size w :
  is_sku_available client loc size w
  = match resource_skus_list client w with
    | ((items, stop), w1) =>
        match scan_skus loc size items stop with
        | Return b => (Return b, w1, [Call ResourceSkusList None])
        | Raise e => (Return false, w1,
                      [Call ResourceSkusList (Some e); Log ERROR (MsgSkuCheckError e)])
        | SysExit c => (SysExit c, w1, [Call ResourceSkusList None])
        end
    end.
Proof.
  unfold is_sku_available, try_except.
  destruct (resource_skus_list client w) as [[items stop] w1].
  destruct (scan_skus loc size items stop); reflexivity.
Qed.

Lemma check_sku_availability_run loc size w :
  check_sku_availability client loc size w = is_sku_available client loc size w.
Proof.
  unfold check_sku_availability, try_except, bind. rewrite is_sku_available_run.
  destruct (resource_skus_list client w) as [[items stop] w1].
  destruct (scan_skus_outcome loc size items stop) as [E | [E | (e & E & _)]];
    rewrite E; reflexivity.
Qed.

Lemma check_sku_availability_cases loc size w o w' t :
  check_sku_availability client loc size w = (o, w', t) ->
  exists b, o = Return b /\ sku_check b t
    /\ (b = true <->
        exists sku, In sku (fst (fst (resource_skus_list client w)))
                    /\ sku_name sku = size /\ In loc (sku_locations sku)).
Proof.
  rewrite check_sku_availability_run, is_sku_available_run.
  destruct (resource_skus_list client w) as [[items stop] w1]. simpl.
  pose proof (scan_skus_true loc size items stop) as Ht.
  destruct (scan_skus_outcome loc size items stop) as [E | [E | (e & E & _)]];
    rewrite E in *; intros H; inversion H; subst.
  - exists true. split; [reflexivity |]. split; [constructor |].
    split; [intros _ | reflexivity].
    destruct (proj1 Ht eq_refl) as (s & Hin & Hs). exists s.
    apply sku_matches_true in Hs. tauto.
  - exists false. split; [reflexivity |]. split; [constructor |].
    split; [discriminate |]. intros (s & Hin & Hs).
    assert (Return false = Return true :> outcome bool); [| discriminate].
    apply Ht. exists s. split; [assumption |]. now apply sku_matches_true.
  - exists false. split; [reflexivity |]. split; [constructor |].
    split; [discriminate |]. intros (s & Hin & Hs).
    assert (Raise e = Return true :> outcome bool); [| discriminate].
    apply Ht. exists s. split; [assumption |]. now apply sku_matches_true.
Qed.

(** [delete_vm] returns only after [begin_delete] returned and the [result()]
    of its operation returned; an exception of either goes through. *)
Lemma delete_vm_cases rg name zs w o w' t :
  delete_vm client rg name zs w = (o, w', t) ->
  (o = Return tt
   /\ t = [Log INFO (MsgDeletingVm name rg zs);
           Call (VirtualMachinesBeginDelete rg name) None;
           Call (DeleteOperationResult rg name) None])
  \/ (exists e, o = Raise e
       /\ t = [Log INFO (MsgDeletingVm name rg zs);
               Call (VirtualMachinesBeginDelete rg name) (Some e)])
  \/ (exists e, o = Raise e
       /\ t = [Log INFO (MsgDeletingVm name rg zs);
               Call (VirtualMachinesBeginDelete rg name) None;
               Call (DeleteOperationResult rg name) (Some e)]).
Proof.
  unfold delete_vm, bind, logging, call. simpl.
  destruct (virtual_machines_begin_delete client rg name w) as [[op | e] w1]; simpl.
  - destruct (op w1) as [[[] | e] w2]; simpl; intros H; inversion H; subst.
    + left. auto.
    + right. right. exists e. auto.
  - intros H. inversion H; subst. right. left. exists e. auto.
Qed.

(** [create_vm] catches [ResourceExistsError] and nothing else. *)
Lemma create_vm_cases rg name zone os_id data_ids nic size loc os_type w o w' t :
  create_vm client rg name zone os_id data_ids nic size loc os_type w = (o, w', t) ->
  let p := vm_parameters zone os_id data_ids nic size loc os_type in
  (o = Return tt /\ create_returns rg name zone p t)
  \/ (exists e, o = Raise e /\ exn_cls e <> ResourceExistsError
       /\ t = [Log INFO (MsgCreatingVm name rg zone);
               Call (VirtualMachinesBeginCreateOrUpdate rg name p) (Some e)]).
Proof.
  unfold create_vm, try_except, bind, logging, call. simpl.
  destruct (virtual_machines_begin_create_or_update client rg name _ w)
    as [[[] | e] w1]; simpl.
  - intros H. inversion H; subst. left. split; [reflexivity | constructor].
  - destruct (isinstance e ResourceExistsError) eqn:I.
    + destruct (contains "SkuNotAvailable" (exn_str e)) eqn:C;
        simpl; intros H; inversion H; subst; left; (split; [reflexivity |]);
        (eapply create_conflicted; [now apply isinstance_true | simpl; rewrite C; reflexivity]).
    + intros H. inversion H; subst. right. exists e.
      split; [reflexivity |]. split; [now apply isinstance_false | reflexivity].
Qed.

Lemma start_vm_cases rg name w o w' t :
  start_vm client rg name w = (o, w', t) ->
  (o = Return tt
   /\ t = [Log INFO (MsgStartingVm name rg); Call (VirtualMachinesBeginStart rg name) None])
  \/ (exists e, o = Raise e
       /\ t = [Log INFO (MsgStartingVm name rg);
               Call (VirtualMachinesBeginStart rg name) (Some e)]).
Proof.
  unfold start_vm, bind, logging, call. simpl.
  destruct (virtual_machines_begin_start client rg name w) as [[[] | e] w1];
    simpl; intros H; inversion H; subst.
  - left. auto.
  - right. exists e. auto.
Qed.

Lemma zone_in_cases zone zs (w : W) o w' t :
  zone_in zone zs w = (o, w', t) ->
  (zs = None /\ o = Raise type_error /\ w' = w /\ t = [])
  \/ (exists l, zs = Some l /\ o = Return (str_in zone l) /\ w' = w /\ t = []).
Proof.
  destruct zs as [l |]; simpl; unfold ret, raise; intros H; inversion H; subst.
  - right. exists l. auto.
  - left. auto.
Qed.

(** Every run of the body of [if vm:] is one of the runs of [main_vm_run]. *)
Lemma main_vm_cases check_only row vm w o w' t :
  main_vm client check_only row vm w = (o, w', t) ->
  main_vm_run check_only row vm
    (exists sku, In sku (fst (fst (resource_skus_list client w)))
                 /\ sku_name sku = vm_size vm /\ In (location vm) (sku_locations sku))
    o t.
Proof.
  unfold main_vm. intros H.
  apply bind_inv in H as [(a & w1 & t1 & t2 & Hlog & H & ->)
                         | [(e & Hlog & _) | (c & Hlog & _)]];
    [| discriminate Hlog ..].
  apply logging_inv in Hlog as (_ & -> & ->).
  apply bind_inv in H as [(a' & w1 & t1 & t3 & Hdisks & H & ->)
                         | [(e & Hdisks & _) | (c & Hdisks & _)]];
    rewrite list_vm_disks_run in Hdisks; inversion Hdisks; subst; clear Hdisks.
  change ([Log INFO (MsgVmExists (Source_VM_Name row) (Source_Resource_Group_Name row)
                       (zones vm))] ++ disk_lines vm ++ t3)
    with (inspected row vm ++ t3).
  apply bind_inv in H as [(same & w2 & t4 & t5 & Hz & H & ->)
                         | [(e & Hz & ->) | (c & Hz & ->)]];
    apply zone_in_cases in Hz as [(Z & Hz & -> & ->) | (zs & Z & Hz & -> & ->)];
    try discriminate.
  2: { inversion Hz; subst. rewrite app_nil_r. now apply run_no_zones. }
  inversion Hz; subst same; clear Hz. rewrite app_nil_l.
  destruct (str_in (Desired_Zone row) zs) eqn:In_zs.
  { unfold logging in H. inversion H; subst. now apply run_same_zone with zs. }
  destruct check_only eqn:CO.
  { unfold ret in H. inversion H; subst. rewrite app_nil_r.
    now apply run_check_only with zs. }
  apply bind_inv in H as [(av & w3 & t5' & t6 & Hsku & H & ->)
                          | [(e & Hsku & _) | (c & Hsku & _)]];
    apply check_sku_availability_cases in Hsku as (b & Hb & Hcheck & Hcat);
    try discriminate.
  inversion Hb; subst av; clear Hb.
  destruct b; simpl in H.
  2: { unfold logging in H. inversion H; subst. simpl.
       now apply run_unavailable with zs. }
  assert (Cat := proj1 Hcat eq_refl). clear Hcat.
  inversion Hcheck; subst.
  apply bind_inv in H as [(ids & w4 & t7 & t8 & Hsnap & H & ->)
                         | [(e & Hsnap & ->) | (c & Hsnap & ->)]];
    apply snapshot_and_collect_cases in Hsnap
      as [(nic & nics & N & Hids & Hst)
         | [(e' & t9 & He' & Hab & Ht) | (t9 & N & He' & Hst & Ht)]];
    try discriminate.
  2: { subst. inversion He'; subst. now apply run_snapshot_aborted with zs. }
  2: { subst. inversion He'; subst. now apply run_no_nic with zs. }
  inversion Hids; subst ids; clear Hids.
  apply bind_inv in H as [(u & w5 & t9 & t10 & Hdel & H & ->)
                         | [(e & Hdel & ->) | (c & Hdel & ->)]];
    apply delete_vm_cases in Hdel as [[Hr ->] | [(e' & He' & ->) | (e' & He' & ->)]];
    try discriminate.
  2: { inversion He'; subst. now apply run_delete_refused with zs nic nics. }
  2: { inversion He'; subst. now apply run_delete_failed with zs nic nics. }
  apply bind_inv in H as [(u' & w6 & t11 & t12 & Hcr & H & ->)
                         | [(e & Hcr & ->) | (c & Hcr & ->)]];
    apply create_vm_cases in Hcr as [[Hr' Hcr] | (e' & He' & Hcls & ->)];
    try discriminate.
  2: { inversion He'; subst. now apply (run_create_raised false row vm _ zs t7 nic nics e'). }
  apply bind_inv in H as [(u2 & w7 & t13 & t14 & Hs & H & ->)
                         | [(e & Hs & ->) | (c & Hs & ->)]];
    apply start_vm_cases in Hs as [[Hr2 ->] | (e' & He' & ->)];
    try discriminate.
  2: { inversion He'; subst. now apply (run_start_raised false row vm _ zs t7 nic nics t11 e'). }
  apply bind_inv in H as [(u3 & w8 & t15 & t16 & Hd & H & ->)
                         | [(e & Hd & _) | (c & Hd & _)]];
    rewrite list_vm_disks_run in Hd; inversion Hd; subst; clear Hd.
  unfold logging in H. inversion H; subst.
  now apply (run_migrated false row vm _ zs t7 nic nics t11).
Qed.

End Functions.

(** ** Order in a trace *)

Lemma Forall_false_not_in (Q : event -> bool) l ev :
  Forall (fun x => Q x = false) l -> In ev l -> Q ev = true -> False.
Proof.
  intros HF Hin HQ. rewrite Forall_forall in HF. specialize (HF ev Hin). congruence.
Qed.

(** A trace without [Q] events satisfies every [before _ Q]. *)
Lemma before_none P Q tr :
  Forall (fun ev => Q ev = false) tr -> before P Q tr.
Proof.
  intros HF pre ev post -> HQ. exfalso.
  eapply Forall_false_not_in; [exact HF | | exact HQ].
  apply in_or_app. right. now left.
Qed.

(** If a prefix of the trace has a [P] event and no [Q] event, every [Q] event
    of the trace comes after a [P] event. *)
Lemma before_after P Q l1 l2 :
  Forall (fun ev => Q ev = false) l1 ->
  (exists ev, In ev l1 /\ P ev) ->
  before P Q (l1 ++ l2).
Proof.
  intros HF (ev' & Hin & HP) pre ev post E HQ.
  apply app_eq_app in E. destruct E as (l & [[E1 E2] | [E1 E2]]).
  - destruct l as [| x l].
    + rewrite app_nil_r in E1. subst pre. exists ev'. auto.
    + simpl in E2. inversion E2; subst x. exfalso.
      eapply Forall_false_not_in; [exact HF | | exact HQ].
      rewrite E1. apply in_or_app. right. now left.
  - exists ev'. split; [| exact HP]. rewrite E1. apply in_or_app. now left.
Qed.

(** The place of the only [Q] event of a trace. *)
Lemma unique_split (Q : event -> bool) l1 x l2 pre ev post :
  Forall (fun e => Q e = false) l1 ->
  Forall (fun e => Q e = false) l2 ->
  Q ev = true ->
  l1 ++ x :: l2 = pre ++ ev :: post ->
  pre = l1 /\ ev = x /\ post = l2.
Proof.
  intros H1 H2 HQ E.
  apply app_eq_app in E. destruct E as (l & [[E1 E2] | [E1 E2]]).
  - destruct l as [| y l].
    + rewrite app_nil_r in E1. simpl in E2. inversion E2. subst. auto.
    + simpl in E2. inversion E2; subst y. exfalso.
      eapply Forall_false_not_in; [exact H1 | | exact HQ].
      rewrite E1. apply in_or_app. right. now left.
  - destruct l as [| y l].
    + rewrite app_nil_r in E1. simpl in E2. inversion E2. subst. auto.
    + simpl in E2. inversion E2; subst. exfalso.
      eapply Forall_false_not_in; [exact H2 | | exact HQ].
      apply in_or_app. right. now left.
Qed.

Lemma snapshot_requests_app l1 l2 :
  snapshot_requests (l1 ++ l2) = snapshot_requests l1 ++ snapshot_requests l2.
Proof.
  induction l1 as [| ev l1 IH]; [reflexivity |].
  destruct ev as [l m | [] r]; simpl; rewrite ?IH; reflexivity.
Qed.

Lemma snapshot_requests_none l :
  Forall (fun ev => is_snapshot_call ev = false) l -> snapshot_requests l = [].
Proof.
  induction 1 as [| ev l Hev _ IH]; [reflexivity |].
  destruct ev as [lv m | [] r]; simpl in *; try assumption. discriminate.
Qed.

Lemma sku_check_Forall (P : event -> Prop) b t :
  (forall r, P (Call ResourceSkusList r)) ->
  (forall e, P (Log ERROR (MsgSkuCheckError e))) ->
  sku_check b t -> Forall P t.
Proof. intros Hc Hl H. destruct H; repeat constructor; auto. Qed.

Lemma create_returns_Forall (P : event -> Prop) rg n z p t :
  (forall a b c, P (Log INFO (MsgCreatingVm a b c))) ->
  (forall a b, P (Log WARNING (MsgCreateSkuNotAvailable a b))) ->
  (forall a b, P (Log ERROR (MsgCreateError a b))) ->
  (forall a b c r, P (Call (VirtualMachinesBeginCreateOrUpdate a b c) r)) ->
  create_returns rg n z p t -> Forall P t.
Proof.
  intros Hl Hw He Hc H. destruct H as [| e l m _ Hm]; repeat constructor; auto.
  destruct (contains "SkuNotAvailable" (exn_str e)); inversion Hm; subst; auto.
Qed.

(** Solves [Forall (fun ev => Q ev = false) l] on the traces of the script. *)
Ltac no_event :=
  repeat first
    [ apply Forall_nil
    | apply Forall_app; split
    | apply disk_lines_Forall; intros; reflexivity
    | match goal with
      | H : snapshot_stage _ _ _ ?t |- Forall _ ?t =>
          apply (snapshot_stage_Forall _ _ _ _ _) with (4 := H); intros; reflexivity
      | H : snapshot_stage_aborted _ _ _ _ ?t |- Forall _ ?t =>
          apply (snapshot_stage_aborted_Forall _ _ _ _ _ _) with (4 := H);
          intros; reflexivity
      | H : sku_check _ ?t |- Forall _ ?t =>
          apply (sku_check_Forall _ _ _) with (3 := H); intros; reflexivity
      | H : create_returns _ _ _ _ ?t |- Forall _ ?t =>
          apply (create_returns_Forall _ _ _ _ _ _) with (5 := H); intros; reflexivity
      end
    | apply Forall_cons; [reflexivity |] ].

(** ** One row *)

Section Rows.

Context {W : Type}.
Variable client : ComputeManagementClient W.
Variable check_only : bool.
Variable row : Row.

(** A row whose VM the provider returns runs the body of [if vm:] on it. *)
Lemma main_row_found w vm w1 :
  virtual_machines_get client (Source_Resource_Group_Name row) (Source_VM_Name row) w
    = (inl vm, w1) ->
  main_row client check_only row w
  = (outcome_of (main_vm client check_only row vm w1),
     world_of (main_vm client check_only row vm w1),
     Call (VirtualMachinesGet (Source_Resource_Group_Name row) (Source_VM_Name row)) None
     :: Log INFO (MsgVmSku (Source_VM_Name row) (Source_Resource_Group_Name row) (vm_size vm))
     :: trace_of (main_vm client check_only row vm w1)).
Proof.
  intros Hget.
  unfold main_row, bind, check_vm_exists, try_except, bind, call, logging, ret.
  rewrite Hget. simpl.
  destruct (main_vm client check_only row vm w1) as [[o w2] t]. reflexivity.
Qed.

(** A row whose VM the provider does not return is skipped. *)
Lemma main_row_not_found w e w1 :
  virtual_machines_get client (Source_Resource_Group_Name row) (Source_VM_Name row) w
    = (inr e, w1) ->
  exists l m,
    is_mutating (Log l m) = false
    /\ main_row client check_only row w
       = (Return tt, w1,
          [Call (VirtualMachinesGet (Source_Resource_Group_Name row) (Source_VM_Name row))
                (Some e);
           Log l m]).
Proof.
  intros Hget.
  unfold main_row, bind, check_vm_exists, try_except, bind, call, logging, ret,
    any_exception.
  rewrite Hget. simpl.
  destruct (contains "ResourceNotFound" (exn_str e)); simpl; do 2 eexists;
    (split; [| reflexivity]); reflexivity.
Qed.

(** The runs of a row whose VM the provider returns. *)
Lemma main_row_cases w vm w1 :
  virtual_machines_get client (Source_Resource_Group_Name row) (Source_VM_Name row) w
    = (inl vm, w1) ->
  exists t,
    trace_of (main_row client check_only row w)
    = [Call (VirtualMachinesGet (Source_Resource_Group_Name row) (Source_VM_Name row)) None;
       Log INFO (MsgVmSku (Source_VM_Name row) (Source_Resource_Group_Name row) (vm_size vm))]
      ++ t
    /\ main_vm_run check_only row vm
         (exists sku, In sku (fst (fst (resource_skus_list client w1)))
                      /\ sku_name sku = vm_size vm /\ In (location vm) (sku_locations sku))
         (outcome_of (main_row client check_only row w)) t.
Proof.
  intros Hget. rewrite (main_row_found _ _ _ Hget).
  destruct (main_vm client check_only row vm w1) as [[o w2] t] eqn:E.
  exists t. split; [reflexivity |]. simpl. eapply main_vm_cases. exact E.
Qed.

End Rows.

(** ** The whole run *)

Section Run.

Context {W : Type}.
Variable client : ComputeManagementClient W.
Variable check_only : bool.

Lemma main_cons row rest w :
  main client check_only (row :: rest) w
  = match main_row client check_only row w with
    | (Return _, w1, t1) =>
        (outcome_of (main client check_only rest w1),
         world_of (main client check_only rest w1),
         t1 ++ trace_of (main client check_only rest w1))
    | (Raise e, w1, t1) => (Raise e, w1, t1)
    | (SysExit c, w1, t1) => (SysExit c, w1, t1)
    end.
Proof.
  unfold main. simpl. unfold bind at 1.
  destruct (main_row client check_only row w) as [[[a | e | c] w1] t1]; try reflexivity.
  destruct (for_each rest (main_row client check_only) w1) as [[o w2] t2]. reflexivity.
Qed.

(** The rows after a run of rows that returned are processed in the world
    that run left. *)
Lemma main_app done rest w0 w t0 :
  main client check_only done w0 = (Return tt, w, t0) ->
  main client check_only (done ++ rest) w0
  = (outcome_of (main client check_only rest w),
     world_of (main client check_only rest w),
     t0 ++ trace_of (main client check_only rest w)).
Proof.
  revert w0 t0. induction done as [| row done IH]; intros w0 t0 H.
  - unfold main in H. simpl in H. apply ret_inv in H as (_ & -> & ->).
    rewrite app_nil_l.
    destruct (main client check_only rest w0) as [[o w2] t2]. reflexivity.
  - simpl. rewrite main_cons in *.
    destruct (main_row client check_only row w0) as [[[[] | e | c] w1] t1];
      try discriminate.
    destruct (main client check_only done w1) as [[o2 w2] t2] eqn:E.
    unfold outcome_of, world_of, trace_of in H. simpl in H. inversion H; subst.
    rewrite (IH _ _ E). simpl. now rewrite app_assoc.
Qed.

End Run.

(** ** The zone gate *)

Lemma main_vm_same_zone {W} (client : ComputeManagementClient W) check_only row vm zs w :
  zones vm = Some zs -> In (Desired_Zone row) zs ->
  main_vm client check_only row vm w
  = (Return tt, w, inspected row vm ++ [Log WARNING (MsgSameZone (Desired_Zone row))]).
Proof.
  intros Z Hin. apply str_in_In in Hin.
  unfold main_vm, inspected, bind, logging. rewrite list_vm_disks_run, Z. simpl.
  rewrite Hin. reflexivity.
Qed.

Lemma main_vm_no_zones {W} (client : ComputeManagementClient W) check_only row vm w :
  zones vm = None ->
  main_vm client check_only row vm w = (Raise type_error, w, inspected row vm).
Proof.
  intros Z.
  unfold main_vm, inspected, bind, logging. rewrite list_vm_disks_run, Z. simpl.
  rewrite app_nil_r. reflexivity.
Qed.


(** C2.  A row whose desired zone is among the zones of its source VM is a
    no-op: the row returns after the warning that no migration is needed, its
    trace holds the inspection, the report and that warning and no event of
    [create_snapshot], [delete_vm], [create_vm] or [start_vm], and the run goes
    on with the next row. *)
Theorem same_zone_is_noop {W} (client : ComputeManagementClient W) (check_only : bool)
    (row : Row) (rest : list Row) (w w1 : W) (vm : VirtualMachine) (zs : list string) :
  virtual_machines_get client (Source_Resource_Group_Name row) (Source_VM_Name row) w
    = (inl vm, w1) ->
  zones vm = Some zs ->
  In (Desired_Zone row) zs ->
  let tr :=
    [Call (VirtualMachinesGet (Source_Resource_Group_Name row) (Source_VM_Name row)) None;
     Log INFO (MsgVmSku (Source_VM_Name row) (Source_Resource_Group_Name row) (vm_size vm))]
    ++ inspected row vm ++ [Log WARNING (MsgSameZone (Desired_Zone row))] in
  main_row client check_only row w = (Return tt, w1, tr)
  /\ Forall (fun ev => is_mutating ev = false) tr
  /\ main client check_only (row :: rest) w
     = (outcome_of (main client check_only rest w1),
        world_of (main client check_only rest w1),
        tr ++ trace_of (main client check_only rest w1)).
Proof.
  intros Hget Z Hin tr.
  assert (Hrow : main_row client check_only row w = (Return tt, w1, tr)).
  { rewrite (main_row_found _ _ _ _ _ _ Hget).
    rewrite (main_vm_same_zone _ _ _ _ _ _ Z Hin). reflexivity. }
  split; [exact Hrow |]. split.
  - subst tr. unfold inspected. no_event.
  - rewrite main_cons, Hrow. reflexivity.
Qed.

(** The VM of [row_to_1] is in zone 1 already. *)
Lemma same_zone_is_noop_witness :
  main_row (scripted happy) false row_to_1 0
  = (Return tt, 0,
     [Call (VirtualMachinesGet "rg-src" "vm1") None;
      Log INFO (MsgVmSku "vm1" "rg-src" "Standard_D2s_v3");
      Log INFO (MsgVmExists "vm1" "rg-src" (Some ["1"]));
      Log INFO (MsgOsDisk "vm1-os" "/disks/vm1-os");
      Log INFO (MsgDataDisk "vm1-d1" "/disks/vm1-d1");
      Log WARNING (MsgSameZone "1")]).
Proof.
  exact (proj1 (same_zone_is_noop (scripted happy) false row_to_1 [row_to_2] 0 0 vm1 ["1"]
                  eq_refl eq_refl (or_introl eq_refl))).
Defined.

(** ** Check-only mode *)




(** ** A VM pinned to no zone *)

(** C9.  When the source VM of a row exists and its zone list is [None], the
    zone test raises [TypeError]: the row ends with that exception after the
    inspection and the report, nothing catches it, and the run ends with it
    whatever rows follow. *)
Theorem no_zone_ends_run {W} (client : ComputeManagementClient W) (check_only : bool)
    (done : list Row) (row : Row) (rest : list Row) (w0 w w1 : W) (t0 : list event)
    (vm : VirtualMachine) :
  main client check_only done w0 = (Return tt, w, t0) ->
  virtual_machines_get client (Source_Resource_Group_Name row) (Source_VM_Name row) w
    = (inl vm, w1) ->
  zones vm = None ->
  let tr :=
    [Call (VirtualMachinesGet (Source_Resource_Group_Name row) (Source_VM_Name row)) None;
     Log INFO (MsgVmSku (Source_VM_Name row) (Source_Resource_Group_Name row) (vm_size vm))]
    ++ inspected row vm in
  main_row client check_only row w = (Raise type_error, w1, tr)
  /\ exn_cls type_error = TypeError
  /\ Forall (fun ev => is_mutating ev = false) tr
  /\ main client check_only (done ++ row :: rest) w0 = (Raise type_error, w1, t0 ++ tr).
Proof.
  intros Hdone Hget Z tr.
  assert (Hrow : main_row client check_only row w = (Raise type_error, w1, tr)).
  { rewrite (main_row_found _ _ _ _ _ _ Hget).
    rewrite (main_vm_no_zones _ _ _ _ _ Z). reflexivity. }
  split; [exact Hrow |]. split; [reflexivity |]. split.
  - subst tr. unfold inspected. no_event.
  - rewrite (main_app _ _ _ _ _ _ _ Hdone), main_cons, Hrow. reflexivity.
Qed.

(** The second row's VM is pinned to no zone: the third row is never read. *)
Lemma no_zone_ends_run_witness :
  outcome_of (main (scripted happy_regional) false [] 0) = Return tt
  /\ main (scripted happy_regional) false ([] ++ row_to_2 :: [row_to_1]) 0
     = (Raise type_error, 0,
        [Call (VirtualMachinesGet "rg-src" "vm1") None;
         Log INFO (MsgVmSku "vm1" "rg-src" "Standard_D2s_v3");
         Log INFO (MsgVmExists "vm1" "rg-src" None);
         Log INFO (MsgOsDisk "vm1-os" "/disks/vm1-os");
         Log INFO (MsgDataDisk "vm1-d1" "/disks/vm1-d1")]).
Proof.
  split; [reflexivity |].
  exact (proj2 (proj2 (proj2
    (no_zone_ends_run (scripted happy_regional) false [] row_to_2 [row_to_1]
       0 0 0 [] vm1_regional eq_refl eq_refl eq_refl)))).
Defined.

(** ** The capacity check *)

(** C8.  [check_sku_availability] always returns a boolean and never raises.
    It returns [True] exactly when an entry the enumeration of the catalog
    yields has the name [vm_size] and lists [location]; and when the
    enumeration raises in the loop it returns [False], after an error line.
    [is_sku_available] answers the same. *)
Theorem check_sku_availability_spec {W} (client : ComputeManagementClient W)
    (loc size : string) (w : W) :
  let items := fst (fst (resource_skus_list client w)) in
  let stop := snd (fst (resource_skus_list client w)) in
  exists b,
    outcome_of (check_sku_availability client loc size w) = Return b
    /\ outcome_of (is_sku_available client loc size w) = Return b
    /\ (b = true <->
        exists sku, In sku items /\ sku_name sku = size /\ In loc (sku_locations sku))
    /\ (forall e, scan_skus loc size items stop = Raise e ->
          b = false
          /\ trace_of (check_sku_availability client loc size w)
             = [Call ResourceSkusList (Some e); Log ERROR (MsgSkuCheckError e)]).
Proof.
  intros items stop.
  destruct (check_sku_availability client loc size w) as [[o w'] t] eqn:E.
  pose proof (check_sku_availability_cases client loc size w o w' t E)
    as (b & -> & _ & Hiff).
  exists b. split; [reflexivity |]. split.
  - rewrite <- check_sku_availability_run, E. reflexivity.
  - split; [exact Hiff |]. intros e He.
    rewrite check_sku_availability_run, is_sku_available_run in E.
    subst items stop.
    destruct (resource_skus_list client w) as [[items stop] w1]. simpl in *.
    rewrite He in E. inversion E; subst. auto.
Qed.

(** The size of [vm1] is offered in eastus by the third entry of the catalog. *)
Example sku_available_in_catalog :
  check_sku_availability (scripted happy) "eastus" "Standard_D2s_v3" 0
  = (Return true, 0, [Call ResourceSkusList None]).
Proof. reflexivity. Qed.

(** It is not offered in westeurope. *)
Example sku_not_in_location :
  check_sku_availability (scripted happy) "westeurope" "Standard_D2s_v3" 0
  = (Return false, 0, [Call ResourceSkusList None]).
Proof. reflexivity. Qed.

(** When the enumeration fails the answer is [False]. *)
Example sku_catalog_down :
  check_sku_availability (scripted catalog_down) "eastus" "Standard_D2s_v3" 0
  = (Return false, 0,
     [Call ResourceSkusList (Some throttled); Log ERROR (MsgSkuCheckError throttled)]).
Proof. reflexivity. Qed.

(** ** Where [delete_vm] and [create_vm] stand in a run *)


(** A run has no event of [create_vm], or exactly one call of it: it stands
    after the events of a [delete_vm] that returned, its request is
    [request_for] the row and the VM, and what follows depends on what the
    submission raised. *)
Lemma main_vm_run_create check_only row vm P o t :
  main_vm_run check_only row vm P o t ->
  Forall (fun ev => is_create_event ev = false) t
  \/ exists nic nics l0 r l2,
       network_interfaces vm = nic :: nics /\ P
       /\ t = (l0 ++ deleted row vm)
              ++ Log INFO (MsgCreatingVm (Desired_VM_Name row)
                             (Desired_Resource_Group_Name row) (Desired_Zone row))
              :: Call (VirtualMachinesBeginCreateOrUpdate (Desired_Resource_Group_Name row)
                         (Desired_VM_Name row) (request_for row vm nic)) r
              :: l2
       /\ Forall (fun ev => is_create_event ev = false) (l0 ++ deleted row vm)
       /\ Forall (fun ev => is_create_call ev = false) l2
       /\ match r with
          | None =>
              exists r' l3,
                l2 = Log INFO (MsgStartingVm (Desired_VM_Name row)
                                 (Desired_Resource_Group_Name row))
                     :: Call (VirtualMachinesBeginStart (Desired_Resource_Group_Name row)
                                (Desired_VM_Name row)) r'
                     :: l3
          | Some e =>
              (exn_cls e = ResourceExistsError
               /\ exists lv m r' l3,
                    l2 = Log lv m
                         :: Log INFO (MsgStartingVm (Desired_VM_Name row)
                                        (Desired_Resource_Group_Name row))
                         :: Call (VirtualMachinesBeginStart
                                    (Desired_Resource_Group_Name row)
                                    (Desired_VM_Name row)) r'
                         :: l3)
              \/ (exn_cls e <> ResourceExistsError /\ l2 = [] /\ o = Raise e)
          end.
Proof.
  intros H. inversion H; subst;
    try (left; unfold inspected; no_event; fail);
    right; exists nic, nics.
  - (* the submission raised an exception [create_vm] does not catch *)
    exists (inspected row vm ++ [Call ResourceSkusList None] ++ t0), (Some e), [].
    repeat split; try assumption.
    + rewrite <- !app_assoc. reflexivity.
    + unfold inspected, deleted. no_event.
    + constructor.
    + right. auto.
  - (* [create_vm] returned and [start_vm] raised *)
    exists (inspected row vm ++ [Call ResourceSkusList None] ++ t0).
    match goal with Hc : create_returns _ _ _ _ _ |- _ => destruct Hc as [| e' lv m He' Hm] end.
    + exists None. eexists. repeat split; try assumption.
      * rewrite <- !app_assoc. reflexivity.
      * unfold inspected, deleted. no_event.
      * no_event.
      * eexists. eexists. reflexivity.
    + exists (Some e'). eexists. repeat split; try assumption.
      * rewrite <- !app_assoc. reflexivity.
      * unfold inspected, deleted. no_event.
      * no_event.
      * left. split; [assumption |]. do 4 eexists. reflexivity.
  - (* the row is migrated *)
    exists (inspected row vm ++ [Call ResourceSkusList None] ++ t0).
    match goal with Hc : create_returns _ _ _ _ _ |- _ => destruct Hc as [| e' lv m He' Hm] end.
    + exists None. eexists. repeat split; try assumption.
      * rewrite <- !app_assoc. reflexivity.
      * unfold inspected, deleted. no_event.
      * no_event.
      * eexists. eexists. reflexivity.
    + exists (Some e'). eexists. repeat split; try assumption.
      * rewrite <- !app_assoc. reflexivity.
      * unfold inspected, deleted. no_event.
      * no_event.
      * left. split; [assumption |]. do 4 eexists. reflexivity.
Qed.



(** The create request of a row, wherever it is in the trace: it is sent to
    the desired group and name, it is [request_for] the row and the VM, and the
    catalog had an entry for the size of the VM in its location. *)
Lemma main_row_create_request {W} (client : ComputeManagementClient W) check_only
    row w vm w1 rg n p r :
  virtual_machines_get client (Source_Resource_Group_Name row) (Source_VM_Name row) w
    = (inl vm, w1) ->
  In (Call (VirtualMachinesBeginCreateOrUpdate rg n p) r)
     (trace_of (main_row client check_only row w)) ->
  exists nic nics,
    network_interfaces vm = nic :: nics
    /\ rg = Desired_Resource_Group_Name row /\ n = Desired_VM_Name row
    /\ p = request_for row vm nic
    /\ exists sku, In sku (fst (fst (resource_skus_list client w1)))
                   /\ sku_name sku = vm_size vm /\ In (location vm) (sku_locations sku).
Proof.
  intros Hget Hin.
  destruct (main_row_cases client check_only row w vm w1 Hget) as (t & Ht & Hrun).
  rewrite Ht in Hin. clear Ht. simpl in Hin.
  destruct Hin as [E | [E | Hin]]; try discriminate E.
  apply main_vm_run_create in Hrun.
  destruct Hrun as [Hnone | (nic & nics & l0 & r0 & l2 & N & Cat & -> & H1 & H2 & _)].
  - exfalso. eapply (Forall_false_not_in is_create_event); [exact Hnone | exact Hin |].
    reflexivity.
  - apply in_app_or in Hin. destruct Hin as [Hin | [E | [E | Hin]]]; try discriminate E.
    + exfalso. eapply (Forall_false_not_in is_create_event); [exact H1 | exact Hin |].
      reflexivity.
    + inversion E; subst. exists nic, nics. auto.
    + exfalso. eapply (Forall_false_not_in is_create_call); [exact H2 | exact Hin |].
      reflexivity.
Qed.

(** ** Snapshots before the delete *)




(** ** The delete is confirmed before the create *)

(** C4.  [delete_vm] returns only when [begin_delete] has returned and the
    [result()] of its operation has returned, that is when the provider has
    confirmed the delete; and in the trace of a row every event of [create_vm]
    comes after that confirmation for the source VM. *)
Theorem create_after_delete_confirmed {W} (client : ComputeManagementClient W)
    (check_only : bool) (row : Row) (w w1 : W) (vm : VirtualMachine) :
  virtual_machines_get client (Source_Resource_Group_Name row) (Source_VM_Name row) w
    = (inl vm, w1) ->
  (forall rg n zs w0,
      outcome_of (delete_vm client rg n zs w0) = Return tt ->
      trace_of (delete_vm client rg n zs w0)
      = [Log INFO (MsgDeletingVm n rg zs);
         Call (VirtualMachinesBeginDelete rg n) None;
         Call (DeleteOperationResult rg n) None])
  /\ before
       (fun ev => ev = Call (DeleteOperationResult (Source_Resource_Group_Name row)
                               (Source_VM_Name row)) None)
       is_create_event
       (trace_of (main_row client check_only row w)).
Proof.
  intros Hget. split.
  - intros rg n zs w0 Hret.
    destruct (delete_vm client rg n zs w0) as [[o w2] t] eqn:E.
    apply delete_vm_cases in E.
    destruct E as [[_ ->] | [(e & -> & _) | (e & -> & _)]];
      [reflexivity | discriminate Hret ..].
  - destruct (main_row_cases client check_only row w vm w1 Hget) as (t & -> & Hrun).
    apply main_vm_run_create in Hrun.
    destruct Hrun as [Hnone | (nic & nics & l0 & r0 & l2 & _ & _ & -> & H1 & _)].
    + apply before_none. apply Forall_app. split; [no_event | exact Hnone].
    + rewrite app_assoc. apply before_after.
      * apply Forall_app. split; [no_event | exact H1].
      * eexists. split; [| reflexivity].
        apply in_or_app. right. apply in_or_app. right.
        unfold deleted. simpl. auto.
Qed.

(** The create request for [vm1] is sent after its delete is confirmed. *)
Lemma create_after_delete_confirmed_witness :
  before (fun ev => ev = Call (DeleteOperationResult "rg-src" "vm1") None)
    is_create_event
    (trace_of (main_row (scripted happy) false row_to_2 0)).
Proof.
  exact (proj2 (create_after_delete_confirmed (scripted happy) false row_to_2 0 0 vm1
                  eq_refl)).
Defined.

(** ** The disks of the create request *)

(** C6.  Every create request in the trace of a row carries the resource ID of
    the OS disk and the list of the resource IDs of the data disks as they
    stand in the storage profile of the inspected source VM, in the same
    order, each to be attached. *)
Theorem create_request_disks {W} (client : ComputeManagementClient W)
    (check_only : bool) (row : Row) (w w1 : W) (vm : VirtualMachine)
    (rg n : string) (p : VmParameters) (r : option exn) :
  virtual_machines_get client (Source_Resource_Group_Name row) (Source_VM_Name row) w
    = (inl vm, w1) ->
  In (Call (VirtualMachinesBeginCreateOrUpdate rg n p) r)
     (trace_of (main_row client check_only row w)) ->
  osd_managed_disk_id (p_os_disk p) = md_id (managed_disk (os_disk (storage_profile vm)))
  /\ osd_create_option (p_os_disk p) = "Attach"
  /\ map dd_managed_disk_id (p_data_disks p)
     = map (fun d => md_id (managed_disk d)) (data_disks (storage_profile vm))
  /\ Forall (fun d => dd_create_option d = "Attach") (p_data_disks p).
Proof.
  intros Hget Hin.
  destruct (main_row_create_request client check_only row w vm w1 rg n p r Hget Hin)
    as (nic & nics & _ & _ & _ & -> & _).
  unfold request_for, vm_parameters. simpl.
  split; [reflexivity |]. split; [reflexivity |]. split.
  - rewrite map_map. simpl. now rewrite map_map.
  - apply Forall_forall. intros d Hd. apply in_map_iff in Hd.
    destruct Hd as (x & <- & _). reflexivity.
Qed.

(** The create request for [vm1] attaches its two disks. *)
Lemma create_request_disks_witness :
  let p := request_for row_to_2 vm1 (mkNic "/nics/vm1-nic") in
  In (Call (VirtualMachinesBeginCreateOrUpdate "rg-dst" "vm1-z2" p) None)
     (trace_of (main_row (scripted happy) false row_to_2 0))
  /\ osd_managed_disk_id (p_os_disk p) = "/disks/vm1-os"
  /\ osd_create_option (p_os_disk p) = "Attach"
  /\ map dd_managed_disk_id (p_data_disks p) = ["/disks/vm1-d1"]
  /\ Forall (fun d => dd_create_option d = "Attach") (p_data_disks p).
Proof.
  intros p.
  assert (Hin : In (Call (VirtualMachinesBeginCreateOrUpdate "rg-dst" "vm1-z2" p) None)
                   (trace_of (main_row (scripted happy) false row_to_2 0))).
  { vm_compute. do 14 right. left. reflexivity. }
  split; [exact Hin |].
  exact (create_request_disks (scripted happy) false row_to_2 0 0 vm1
           "rg-dst" "vm1-z2" p None eq_refl Hin).
Defined.

(** ** Location and size are kept *)

(** C10, as the code has it.  Every create request in the trace of a row is
    sent to the desired resource group and name of the row and has the
    location and the size of the inspected source VM, for which the catalog, at
    the capacity check, had an entry of that size listing that location.  The
    zone of the request is the desired zone of the row; its OS type is read from
    the row; its disks are the disks of the source VM; and of the network
    interfaces of the source VM it keeps the first one only. *)
Theorem create_request_keeps_location_and_size {W} (client : ComputeManagementClient W)
    (check_only : bool) (row : Row) (w w1 : W) (vm : VirtualMachine)
    (rg n : string) (p : VmParameters) (r : option exn) :
  virtual_machines_get client (Source_Resource_Group_Name row) (Source_VM_Name row) w
    = (inl vm, w1) ->
  In (Call (VirtualMachinesBeginCreateOrUpdate rg n p) r)
     (trace_of (main_row client check_only row w)) ->
  p_location p = location vm
  /\ p_vm_size p = vm_size vm
  /\ (exists sku, In sku (fst (fst (resource_skus_list client w1)))
                  /\ sku_name sku = vm_size vm /\ In (location vm) (sku_locations sku))
  /\ rg = Desired_Resource_Group_Name row
  /\ n = Desired_VM_Name row
  /\ p_zones p = [Desired_Zone row]
  /\ osd_os_type (p_os_disk p) = os_type_of row
  /\ osd_managed_disk_id (p_os_disk p) = md_id (managed_disk (os_disk (storage_profile vm)))
  /\ map dd_managed_disk_id (p_data_disks p)
     = map (fun d => md_id (managed_disk d)) (data_disks (storage_profile vm))
  /\ p_network_interfaces p = map nic_id (firstn 1 (network_interfaces vm)).
Proof.
  intros Hget Hin.
  destruct (main_row_create_request client check_only row w vm w1 rg n p r Hget Hin)
    as (nic & nics & N & -> & -> & -> & Cat).
  unfold request_for, vm_parameters. simpl. rewrite N. simpl.
  repeat (split; [first [reflexivity | exact Cat] |]).
  split; [| reflexivity].
  rewrite map_map. simpl. now rewrite map_map.
Qed.

(** The create request for [vm1] is in eastus, of size Standard_D2s_v3. *)
Lemma create_request_keeps_location_and_size_witness :
  let p := request_for row_to_2 vm1 (mkNic "/nics/vm1-nic") in
  In (Call (VirtualMachinesBeginCreateOrUpdate "rg-dst" "vm1-z2" p) None)
     (trace_of (main_row (scripted happy) false row_to_2 0))
  /\ p_location p = "eastus" /\ p_vm_size p = "Standard_D2s_v3".
Proof.
  intros p.
  assert (Hin : In (Call (VirtualMachinesBeginCreateOrUpdate "rg-dst" "vm1-z2" p) None)
                   (trace_of (main_row (scripted happy) false row_to_2 0))).
  { vm_compute. do 14 right. left. reflexivity. }
  split; [exact Hin |].
  pose proof (create_request_keeps_location_and_size (scripted happy) false row_to_2
                0 0 vm1 "rg-dst" "vm1-z2" p None eq_refl Hin) as (H1 & H2 & _).
  split; [exact H1 | exact H2].
Defined.

(** C10, as stated, fails in its last clause.  More than the zone, the name and
    the resource group can differ between source and target: of a source VM
    with two network interfaces the target keeps one; and the OS type of the
    target is what the row says, so that two rows for the same move of the same
    VM send different requests. *)
Lemma target_differs_beyond_placement :
  ~ (forall rg n p,
       In (rg, n, p)
          (create_requests (trace_of (main_row (scripted happy_two_nics) false row_to_2 0))) ->
       target_keeps_source vm1_two_nics p)
  /\ ~ (forall r1 r2, same_move r1 r2 ->
        create_requests (trace_of (main_row (scripted happy) false r1 0))
        = create_requests (trace_of (main_row (scripted happy) false r2 0))).
Proof.
  split.
  - intros H.
    specialize (H "rg-dst" "vm1-z2" (request_for row_to_2 vm1_two_nics (mkNic "/nics/vm1-nic"))
                  (or_introl eq_refl)).
    destruct H as (_ & _ & _ & _ & H). discriminate H.
  - intros H.
    specialize (H row_to_2 row_to_2_windows
                  (conj eq_refl (conj eq_refl (conj eq_refl (conj eq_refl eq_refl))))).
    vm_compute in H. discriminate H.
Qed.

(** ** Errors of the create submission *)




(** ** One snapshot request per disk *)

Lemma string_length_append (a b : string) :
  String.length (a ++ b)%string = String.length a + String.length b.
Proof. induction a as [| c a IH]; simpl; [reflexivity | now rewrite IH]. Qed.

(** A suffix of known length determines the prefix. *)
Lemma string_append_inj (a b s1 s2 : string) :
  String.length s1 = String.length s2 ->
  (a ++ s1)%string = (b ++ s2)%string -> a = b.
Proof.
  revert b. induction a as [| c a IH]; intros [| c' b] Hlen E; simpl in E.
  - reflexivity.
  - exfalso. rewrite E in Hlen. simpl in Hlen. rewrite string_length_append in Hlen. lia.
  - exfalso. rewrite <- E in Hlen. simpl in Hlen. rewrite string_length_append in Hlen. lia.
  - inversion E; subst. f_equal. now apply IH.
Qed.

Lemma strftime_length t : String.length (strftime_YmdHMS t) = 14.
Proof. reflexivity. Qed.

(** Snapshot names of disks with different names are different, whatever the
    times. *)
Lemma snapshot_name_inj n1 n2 t1 t2 :
  (n1 ++ "-" ++ strftime_YmdHMS t1)%string = (n2 ++ "-" ++ strftime_YmdHMS t2)%string ->
  n1 = n2.
Proof.
  apply string_append_inj. reflexivity.
Qed.

Lemma snapshot_attempt_requests rg loc d t :
  snapshot_attempt rg loc d t ->
  exists q, snapshot_requests t = [q] /\ snapshot_of_disk rg loc d q
            /\ submitted_or_not_found (snd q).
Proof.
  intros [tm | tm e He]; eexists; (split; [reflexivity |]); split;
    try (exists tm; eexists; reflexivity).
  - exact I.
  - exact He.
Qed.

Lemma snapshot_stage_requests rg loc ds ts :
  snapshot_stage rg loc ds ts ->
  Forall2 (snapshot_of_disk rg loc) ds (snapshot_requests ts)
  /\ Forall (fun q => submitted_or_not_found (snd q)) (snapshot_requests ts).
Proof.
  induction 1 as [| d ds t1 t2 Hat _ [IH1 IH2]].
  - split; constructor.
  - apply snapshot_attempt_requests in Hat. destruct Hat as (q & Hq & Hd & Hs).
    rewrite snapshot_requests_app, Hq. simpl. split; constructor; assumption.
Qed.

Lemma snapshot_stage_aborted_requests rg loc ds e ts :
  snapshot_stage_aborted rg loc ds e ts ->
  ~ Forall (fun q => submitted_or_not_found (snd q)) (snapshot_requests ts).
Proof.
  induction 1 as [d ds t e He | d ds e t1 t2 Hat _ IH]; intros HF.
  - simpl in HF. inversion HF as [| q l Hq _]; subst. simpl in Hq. contradiction.
  - rewrite snapshot_requests_app in HF. apply Forall_app in HF. tauto.
Qed.

(** The snapshot requests of a run are those of its snapshot stage. *)
Lemma main_vm_run_snapshots check_only row vm P o t :
  main_vm_run check_only row vm P o t ->
  snapshot_requests t = []
  \/ (exists ts,
        snapshot_stage (Source_Resource_Group_Name row) (location vm) (disks_of vm) ts
        /\ snapshot_requests t = snapshot_requests ts)
  \/ (exists e ts,
        snapshot_stage_aborted (Source_Resource_Group_Name row) (location vm)
          (disks_of vm) e ts
        /\ snapshot_requests t = snapshot_requests ts).
Proof.
  intros H. inversion H; subst;
    try (left; apply snapshot_requests_none; unfold inspected; no_event; fail);
    right;
    [ right; exists e, t0 | left; exists t0 ..];
    (split; [assumption |]);
    repeat rewrite snapshot_requests_app;
    repeat match goal with
      | |- context [snapshot_requests ?l] =>
          rewrite (snapshot_requests_none l) by (unfold inspected, deleted; no_event)
      end;
    simpl; now rewrite ?app_nil_r.
Qed.

Lemma Forall2_in_r {A B} (R : A -> B -> Prop) l1 l2 b :
  Forall2 R l1 l2 -> In b l2 -> exists a, In a l1 /\ R a b.
Proof.
  induction 1 as [| x y l1 l2 Hxy _ IH]; intros Hin; [destruct Hin |].
  destruct Hin as [-> | Hin].
  - exists x. split; [now left | exact Hxy].
  - destruct (IH Hin) as (a & Ha & Hab). exists a. split; [now right | exact Hab].
Qed.

Lemma snapshot_names_NoDup rg loc ds qs :
  Forall2 (snapshot_of_disk rg loc) ds qs ->
  NoDup (map disk_name ds) ->
  NoDup (map (fun q => snd (fst (fst q))) qs).
Proof.
  induction 1 as [| d q ds qs Hdq HF IH]; intros Hnd; simpl; [constructor |].
  inversion Hnd as [| x l Hnot Hnd']; subst. constructor; [| now apply IH].
  intros Hin. apply Hnot. apply in_map_iff in Hin. destruct Hin as (q' & Hname & Hq').
  destruct (Forall2_in_r _ _ _ _ HF Hq') as (d' & Hd' & Hdq').
  apply in_map_iff. exists d'. split; [| exact Hd'].
  destruct Hdq as (t & r & ->). destruct Hdq' as (t' & r' & ->). simpl in Hname.
  now apply snapshot_name_inj in Hname.
Qed.

(** C7, as the code has it.  When a row reaches the snapshot stage and no
    submission raises an exception other than [ResourceNotFoundError], the
    snapshot requests of its trace are one for each disk of the source VM, the
    OS disk first and the data disks in their order, each on that disk's
    resource ID and under the name of the disk, a dash and the time to the
    second; when the disks of the VM have different names, so have the
    snapshots. *)
Theorem one_snapshot_request_per_disk {W} (client : ComputeManagementClient W)
    (check_only : bool) (row : Row) (w w1 : W) (vm : VirtualMachine) :
  virtual_machines_get client (Source_Resource_Group_Name row) (Source_VM_Name row) w
    = (inl vm, w1) ->
  reaches_snapshot_stage (trace_of (main_row client check_only row w)) ->
  no_snapshot_refused (trace_of (main_row client check_only row w)) ->
  one_request_per_disk (Source_Resource_Group_Name row) vm
    (trace_of (main_row client check_only row w))
  /\ (NoDup (map disk_name (disks_of vm)) ->
      NoDup (snapshot_names (trace_of (main_row client check_only row w)))).
Proof.
  intros Hget. unfold reaches_snapshot_stage, no_snapshot_refused, one_request_per_disk,
    snapshot_names.
  destruct (main_row_cases client check_only row w vm w1 Hget) as (t & -> & Hrun).
  rewrite snapshot_requests_app. simpl.
  apply main_vm_run_snapshots in Hrun.
  destruct Hrun as [-> | [(ts & Hst & ->) | (e & ts & Hab & ->)]]; intros Hreach Hok.
  - now contradiction Hreach.
  - apply snapshot_stage_requests in Hst. destruct Hst as [H2 _].
    split; [exact H2 |]. intros Hnd. exact (snapshot_names_NoDup _ _ _ _ H2 Hnd).
  - exfalso. now apply snapshot_stage_aborted_requests in Hab.
Qed.

(** The two disks of [vm1] get one request each, under different names. *)
Lemma one_snapshot_request_per_disk_witness :
  snapshot_names (trace_of (main_row (scripted happy) false row_to_2 5))
  = ["vm1-os-20240101000005"; "vm1-d1-20240101000005"]
  /\ one_request_per_disk "rg-src" vm1 (trace_of (main_row (scripted happy) false row_to_2 5))
  /\ NoDup (snapshot_names (trace_of (main_row (scripted happy) false row_to_2 5))).
Proof.
  split; [reflexivity |].
  assert (Hreach : reaches_snapshot_stage
                     (trace_of (main_row (scripted happy) false row_to_2 5))).
  { vm_compute. discriminate. }
  assert (Hok : no_snapshot_refused
                  (trace_of (main_row (scripted happy) false row_to_2 5))).
  { vm_compute. repeat constructor. }
  assert (Hnames : NoDup (map disk_name (disks_of vm1))).
  { vm_compute. repeat constructor; simpl; intuition discriminate. }
  destruct (one_snapshot_request_per_disk (scripted happy) false row_to_2 5 5 vm1
              eq_refl Hreach Hok) as [H1 H2].
  split; [exact H1 | exact (H2 Hnames)].
Defined.

(** C7, as stated, fails twice.  A row that reaches the snapshot stage and
    whose first submission is refused with another error than
    [ResourceNotFoundError] sends no request for its data disk; and two disks
    of the same name, snapshotted within the same second, get the same
    snapshot name. *)
Lemma snapshot_requests_missing_or_clashing :
  (reaches_snapshot_stage (trace_of (main_row (scripted snapshots_refused) false row_to_2 5))
   /\ ~ one_request_per_disk "rg-src" vm1
          (trace_of (main_row (scripted snapshots_refused) false row_to_2 5)))
  /\ (reaches_snapshot_stage (trace_of (main_row (scripted happy_same_names) false row_to_2 5))
      /\ ~ NoDup (snapshot_names
                    (trace_of (main_row (scripted happy_same_names) false row_to_2 5)))).
Proof.
  split; split.
  - vm_compute. discriminate.
  - intros H. apply Forall2_length in H. vm_compute in H. discriminate H.
  - vm_compute. discriminate.
  - intros H. vm_compute in H. inversion H as [| x l Hnot _]; subst.
    apply Hnot. now left.
Qed.

(** * More of the script *)

(** ** Rows that are skipped *)

(** A row that returns hands the world it leaves to the rows after it. *)
Lemma main_cons_returns {W} (client : ComputeManagementClient W) check_only row rest w :
  outcome_of (main_row client check_only row w) = Return tt ->
  main client check_only (row :: rest) w
  = (outcome_of (main client check_only rest (world_of (main_row client check_only row w))),
     world_of (main client check_only rest (world_of (main_row client check_only row w))),
     trace_of (main_row client check_only row w)
     ++ trace_of (main client check_only rest (world_of (main_row client check_only row w)))).
Proof.
  intros Ho. rewrite main_cons.
  destruct (main_row client check_only row w) as [[o w1] t1].
  unfold outcome_of in Ho. simpl in Ho. subst o. reflexivity.
Qed.

(** A row that does not return ends the run. *)
Lemma main_cons_ends {W} (client : ComputeManagementClient W) check_only row rest w :
  outcome_of (main_row client check_only row w) <> Return tt ->
  main client check_only (row :: rest) w = main_row client check_only row w.
Proof.
  intros Ho. rewrite main_cons.
  destruct (main_row client check_only row w) as [[[[] | e | c] w1] t1];
    [now contradiction Ho | reflexivity ..].
Qed.

(** When the lookup of the source VM raises, whatever the class of the
    exception, the row is skipped: [check_vm_exists] logs a warning if the text
    of the exception contains [ResourceNotFound] and an error otherwise, nothing
    else is called for the row, and the run goes on with the next row. *)
Theorem failed_lookup_skips_row {W} (client : ComputeManagementClient W)
    (check_only : bool) (row : Row) (rest : list Row) (w w1 : W) (e : exn) :
  virtual_machines_get client (Source_Resource_Group_Name row) (Source_VM_Name row) w
    = (inr e, w1) ->
  let line :=
    if contains "ResourceNotFound" (exn_str e)
    then Log WARNING (MsgVmNotFound (Source_VM_Name row) (Source_Resource_Group_Name row))
    else Log ERROR (MsgVmCheckError (Source_VM_Name row) (Source_Resource_Group_Name row) e)
  in
  let tr :=
    [Call (VirtualMachinesGet (Source_Resource_Group_Name row) (Source_VM_Name row)) (Some e);
     line] in
  main_row client check_only row w = (Return tt, w1, tr)
  /\ main client check_only (row :: rest) w
     = (outcome_of (main client check_only rest w1),
        world_of (main client check_only rest w1),
        tr ++ trace_of (main client check_only rest w1)).
Proof.
  intros Hget line tr.
  assert (Hrow : main_row client check_only row w = (Return tt, w1, tr)).
  { unfold main_row, bind, check_vm_exists, try_except, bind, call, logging, ret,
      any_exception.
    rewrite Hget. subst tr line. simpl.
    destruct (contains "ResourceNotFound" (exn_str e)); reflexivity. }
  split; [exact Hrow |]. rewrite main_cons, Hrow. reflexivity.
Qed.

(** The VM of the first row is unknown: a warning, and the second row is
    processed. *)
Lemma failed_lookup_skips_row_witness :
  main_row (scripted vm_missing) false row_to_2 0
  = (Return tt, 0,
     [Call (VirtualMachinesGet "rg-src" "vm1") (Some gone);
      Log WARNING (MsgVmNotFound "vm1" "rg-src")]).
Proof.
  exact (proj1 (failed_lookup_skips_row (scripted vm_missing) false row_to_2 [row_to_1]
                  0 0 gone eq_refl)).
Defined.

(** When the catalog, as it is enumerated for the row, has no entry of the
    VM's size that lists the VM's location, a row that asks for another zone
    is skipped with a warning: no event of [create_snapshot], [delete_vm],
    [create_vm] or [start_vm], and the run goes on with the next row. *)
Theorem unavailable_size_skips_row {W} (client : ComputeManagementClient W)
    (row : Row) (rest : list Row) (w w1 : W) (vm : VirtualMachine) (zs : list string) :
  virtual_machines_get client (Source_Resource_Group_Name row) (Source_VM_Name row) w
    = (inl vm, w1) ->
  zones vm = Some zs ->
  ~ In (Desired_Zone row) zs ->
  ~ (exists sku, In sku (fst (fst (resource_skus_list client w1)))
                 /\ sku_name sku = vm_size vm /\ In (location vm) (sku_locations sku)) ->
  let run := main_row client false row w in
  outcome_of run = Return tt
  /\ Forall (fun ev => is_mutating ev = false) (trace_of run)
  /\ (exists l, trace_of run
                = l ++ [Log WARNING (MsgSizeNotAvailable (vm_size vm) (location vm))])
  /\ main client false (row :: rest) w
     = (outcome_of (main client false rest (world_of run)),
        world_of (main client false rest (world_of run)),
        trace_of run ++ trace_of (main client false rest (world_of run))).
Proof.
  intros Hget Z Hzone Hcat run.
  destruct (main_row_cases client false row w vm w1 Hget) as (t & Ht & Hrun).
  assert (Hshape : outcome_of run = Return tt
                   /\ Forall (fun ev => is_mutating ev = false) t
                   /\ exists l, t = l ++ [Log WARNING
                                            (MsgSizeNotAvailable (vm_size vm) (location vm))]).
  { subst run. inversion Hrun; subst; try congruence; try contradiction.
    - exfalso. apply Hzone. apply str_in_In. congruence.
    - split; [reflexivity |]. split; [unfold inspected; no_event |].
      exists (inspected row vm ++ t0). now rewrite app_assoc. }
  destruct Hshape as (Ho & Hq & l & Hl).
  split; [exact Ho |]. split; [| split].
  - subst run. rewrite Ht. apply Forall_app. split; [no_event | exact Hq].
  - subst run. rewrite Ht, Hl. eexists. rewrite app_assoc. reflexivity.
  - now apply main_cons_returns.
Qed.

(** The size of [vm1] is not offered in eastus by the small catalog. *)
Lemma unavailable_size_skips_row_witness :
  outcome_of (main_row (scripted size_unavailable) false row_to_2 0) = Return tt
  /\ Forall (fun ev => is_mutating ev = false)
       (trace_of (main_row (scripted size_unavailable) false row_to_2 0)).
Proof.
  assert (Hzone : ~ In (Desired_Zone row_to_2) ["1"]).
  { simpl. intros [H | []]. discriminate H. }
  assert (Hcat : ~ (exists sku,
                       In sku (fst (fst (resource_skus_list (scripted size_unavailable) 0)))
                       /\ sku_name sku = vm_size vm1
                       /\ In (location vm1) (sku_locations sku))).
  { simpl. intros (sku & [<- | [<- | []]] & Hn & Hl); simpl in *.
    - discriminate Hn.
    - destruct Hl as [Hl | []]. discriminate Hl. }
  destruct (unavailable_size_skips_row (scripted size_unavailable) row_to_2 [] 0 0 vm1 ["1"]
              eq_refl eq_refl Hzone Hcat) as (H1 & H2 & _).
  split; [exact H1 | exact H2].
Defined.

(** ** What precedes and what follows the mutating calls *)

(** A run without mutating event, or one that has passed the capacity check. *)
Lemma main_vm_run_gate check_only row vm P o t :
  main_vm_run check_only row vm P o t ->
  Forall (fun ev => is_mutating ev = false) t
  \/ (P /\ check_only = false
      /\ exists l2, t = (inspected row vm ++ [Call ResourceSkusList None]) ++ l2).
Proof.
  intros H. inversion H; subst;
    try (left; unfold inspected; no_event; fail);
    right; (split; [assumption |]); (split; [reflexivity |]);
    eexists; rewrite <- app_assoc; reflexivity.
Qed.

(** No function that changes anything is called before the capacity check has
    answered: in the trace of a row every event of [create_snapshot],
    [delete_vm], [create_vm] or [start_vm] comes after an enumeration of the
    catalog that did not raise; and when there is such an event the run is not
    in check-only mode and the catalog had an entry of the VM's size listing the
    VM's location. *)
Theorem capacity_checked_before_mutation {W} (client : ComputeManagementClient W)
    (check_only : bool) (row : Row) (w w1 : W) (vm : VirtualMachine) :
  virtual_machines_get client (Source_Resource_Group_Name row) (Source_VM_Name row) w
    = (inl vm, w1) ->
  before (fun ev => ev = Call ResourceSkusList None) is_mutating
    (trace_of (main_row client check_only row w))
  /\ ((exists ev, In ev (trace_of (main_row client check_only row w))
                  /\ is_mutating ev = true) ->
      check_only = false
      /\ exists sku, In sku (fst (fst (resource_skus_list client w1)))
                     /\ sku_name sku = vm_size vm /\ In (location vm) (sku_locations sku)).
Proof.
  intros Hget.
  destruct (main_row_cases client check_only row w vm w1 Hget) as (t & -> & Hrun).
  apply main_vm_run_gate in Hrun.
  destruct Hrun as [Hnone | (Cat & CO & l2 & ->)].
  - split.
    + apply before_none. apply Forall_app. split; [no_event | exact Hnone].
    + intros (ev & Hin & Hev). exfalso.
      eapply (Forall_false_not_in is_mutating); [| exact Hin | exact Hev].
      apply Forall_app. split; [no_event | exact Hnone].
  - split; [| intros _; split; assumption].
    rewrite app_assoc. apply before_after.
    + unfold inspected. no_event.
    + eexists. split; [| reflexivity].
      apply in_or_app. right. apply in_or_app. right. now left.
Qed.

(** The snapshots of [vm1] are requested after the catalog has answered. *)
Lemma capacity_checked_before_mutation_witness :
  before (fun ev => ev = Call ResourceSkusList None) is_mutating
    (trace_of (main_row (scripted happy) false row_to_2 0)).
Proof.
  exact (proj1 (capacity_checked_before_mutation (scripted happy) false row_to_2 0 0 vm1
                  eq_refl)).
Defined.

(** A row that returns has left the VM untouched, or has run the migration to
    its end: the delete was confirmed, the create submission was accepted or
    answered with a [ResourceExistsError], and the start submission was
    accepted.  No row returns between two of these steps. *)
Theorem returned_row_is_all_or_nothing {W} (client : ComputeManagementClient W)
    (check_only : bool) (row : Row) (w w1 : W) (vm : VirtualMachine) :
  virtual_machines_get client (Source_Resource_Group_Name row) (Source_VM_Name row) w
    = (inl vm, w1) ->
  outcome_of (main_row client check_only row w) = Return tt ->
  let tr := trace_of (main_row client check_only row w) in
  Forall (fun ev => is_mutating ev = false) tr
  \/ (In (Call (VirtualMachinesBeginDelete (Source_Resource_Group_Name row)
                  (Source_VM_Name row)) None) tr
      /\ In (Call (DeleteOperationResult (Source_Resource_Group_Name row)
                     (Source_VM_Name row)) None) tr
      /\ (exists nic r,
             In (Call (VirtualMachinesBeginCreateOrUpdate (Desired_Resource_Group_Name row)
                         (Desired_VM_Name row) (request_for row vm nic)) r) tr
             /\ match r with
                | None => True
                | Some e => exn_cls e = ResourceExistsError
                end)
      /\ In (Call (VirtualMachinesBeginStart (Desired_Resource_Group_Name row)
                     (Desired_VM_Name row)) None) tr).
Proof.
  intros Hget Ho tr. subst tr.
  destruct (main_row_cases client check_only row w vm w1 Hget) as (t & -> & Hrun).
  rewrite Ho in Hrun.
  inversion Hrun; subst;
    try (left; apply Forall_app; split; [no_event | unfold inspected; no_event]; fail).
  right.
  assert (Hd : forall ev, In ev (deleted row vm) ->
                 In ev ([Call (VirtualMachinesGet (Source_Resource_Group_Name row)
                                 (Source_VM_Name row)) None;
                         Log INFO (MsgVmSku (Source_VM_Name row)
                                     (Source_Resource_Group_Name row) (vm_size vm))]
                        ++ inspected row vm ++ [Call ResourceSkusList None] ++ t0
                        ++ deleted row vm ++ tc
                        ++ [Log INFO (MsgStartingVm (Desired_VM_Name row)
                                        (Desired_Resource_Group_Name row));
                            Call (VirtualMachinesBeginStart (Desired_Resource_Group_Name row)
                                    (Desired_VM_Name row)) None]
                        ++ disk_lines vm ++ [Log INFO MsgSeparator])).
  { intros ev Hev. do 4 (apply in_or_app; right). apply in_or_app. now left. }
  split; [apply Hd; unfold deleted; simpl; auto |].
  split; [apply Hd; unfold deleted; simpl; auto |].
  split.
  - match goal with Hc : create_returns _ _ _ _ tc |- _ =>
      destruct Hc as [| e lv m He Hm] end.
    + exists nic, None. split; [| exact I].
      do 5 (apply in_or_app; right). apply in_or_app. left. simpl. auto.
    + exists nic, (Some e). split; [| exact He].
      do 5 (apply in_or_app; right). apply in_or_app. left. simpl. auto.
  - do 6 (apply in_or_app; right). apply in_or_app. left. simpl. auto.
Qed.

(** The row of [happy] returns after the whole migration. *)
Lemma returned_row_is_all_or_nothing_witness :
  In (Call (VirtualMachinesBeginStart "rg-dst" "vm1-z2") None)
     (trace_of (main_row (scripted happy) false row_to_2 0)).
Proof.
  destruct (returned_row_is_all_or_nothing (scripted happy) false row_to_2 0 0 vm1
              eq_refl eq_refl) as [H | (_ & _ & _ & H)].
  - exfalso. vm_compute in H.
    repeat match goal with
           | H : Forall _ (_ :: _) |- _ => inversion H; clear H; subst
           end; discriminate.
  - exact H.
Defined.

(** ** [sys.exit] *)

(** The runs that end with [sys.exit]. *)
Lemma main_vm_run_exit check_only row vm P c t :
  main_vm_run check_only row vm P (SysExit c) t ->
  c = 1%Z
  /\ Forall (fun ev => is_delete_event ev = false) t
  /\ Forall (fun ev => is_create_event ev = false) t
  /\ Forall (fun ev => is_start_call ev = false) t
  /\ exists l e, t = l ++ [Log ERROR (MsgErrorOccurred e)].
Proof.
  intros H. inversion H; subst; (split; [reflexivity |]);
    repeat (split; [unfold inspected; no_event |]).
  - exists (inspected row vm ++ [Call ResourceSkusList None] ++ t0), e.
    now rewrite <- !app_assoc.
  - exists (inspected row vm ++ [Call ResourceSkusList None] ++ t0), index_error.
    now rewrite <- !app_assoc.
Qed.

(** The only [sys.exit] of the loop is the one of the [try] block around the
    snapshots: when a row ends with [sys.exit] the code is 1, the last line of
    the trace is the error of that block, the VM has not been deleted (no event
    of [delete_vm], [create_vm] or [start_vm]), and the rows after it are not
    processed. *)
Theorem exit_is_before_the_delete {W} (client : ComputeManagementClient W)
    (check_only : bool) (row : Row) (rest : list Row) (w : W) (c : Z) :
  outcome_of (main_row client check_only row w) = SysExit c ->
  let tr := trace_of (main_row client check_only row w) in
  c = 1%Z
  /\ Forall (fun ev => is_delete_event ev = false) tr
  /\ Forall (fun ev => is_create_event ev = false) tr
  /\ Forall (fun ev => is_start_call ev = false) tr
  /\ (exists l e, tr = l ++ [Log ERROR (MsgErrorOccurred e)])
  /\ main client check_only (row :: rest) w = main_row client check_only row w.
Proof.
  intros Ho tr. subst tr.
  assert (Hends : main client check_only (row :: rest) w = main_row client check_only row w).
  { apply main_cons_ends. rewrite Ho. discriminate. }
  destruct (virtual_machines_get client (Source_Resource_Group_Name row)
              (Source_VM_Name row) w) as [[vm | e] w1] eqn:Hget.
  - destruct (main_row_cases client check_only row w vm w1 Hget) as (t & Ht & Hrun).
    rewrite Ho in Hrun. apply main_vm_run_exit in Hrun.
    destruct Hrun as (-> & H1 & H2 & H3 & l & e & ->).
    rewrite Ht. split; [reflexivity |].
    repeat (split; [apply Forall_app; split; [no_event | assumption] |]).
    split; [| exact Hends]. eexists. exists e. rewrite app_assoc. reflexivity.
  - destruct (main_row_not_found client check_only row w e w1 Hget) as (l & m & _ & E).
    rewrite E in Ho. discriminate Ho.
Qed.

(** The refused snapshot of the first row ends the run with code 1. *)
Lemma exit_is_before_the_delete_witness :
  main (scripted snapshots_refused) false [row_to_2; row_to_1] 5
  = main_row (scripted snapshots_refused) false row_to_2 5
  /\ outcome_of (main_row (scripted snapshots_refused) false row_to_2 5) = SysExit 1.
Proof.
  split; [| reflexivity].
  exact (proj2 (proj2 (proj2 (proj2 (proj2
    (exit_is_before_the_delete (scripted snapshots_refused) false row_to_2 [row_to_1] 5 1
       eq_refl)))))).
Defined.

(** A source VM without network interface is found out only after its disks
    have been snapshotted: when the row reaches the snapshot stage and no
    submission is refused, every disk gets its snapshot request, then
    [network_interfaces[0]] raises, the error is logged and the run ends with
    [sys.exit(1)], the VM not deleted. *)
Theorem no_network_interface_exits_after_snapshots {W}
    (client : ComputeManagementClient W) (check_only : bool) (row : Row) (w w1 : W)
    (vm : VirtualMachine) :
  virtual_machines_get client (Source_Resource_Group_Name row) (Source_VM_Name row) w
    = (inl vm, w1) ->
  network_interfaces vm = [] ->
  reaches_snapshot_stage (trace_of (main_row client check_only row w)) ->
  no_snapshot_refused (trace_of (main_row client check_only row w)) ->
  outcome_of (main_row client check_only row w) = SysExit 1
  /\ one_request_per_disk (Source_Resource_Group_Name row) vm
       (trace_of (main_row client check_only row w))
  /\ Forall (fun ev => is_delete_event ev = false)
       (trace_of (main_row client check_only row w))
  /\ exists l, trace_of (main_row client check_only row w)
               = l ++ [Log ERROR (MsgErrorOccurred index_error)].
Proof.
  intros Hget N.
  unfold reaches_snapshot_stage, no_snapshot_refused, one_request_per_disk.
  destruct (main_row_cases client check_only row w vm w1 Hget) as (t & -> & Hrun).
  rewrite snapshot_requests_app. simpl. intros Hreach Hok.
  inversion Hrun; subst; try congruence;
    try (exfalso; apply Hreach; apply snapshot_requests_none; unfold inspected; no_event; fail).
  - (* a submission was refused *)
    exfalso.
    match goal with Hab : snapshot_stage_aborted _ _ _ _ _ |- _ =>
      apply snapshot_stage_aborted_requests in Hab; apply Hab end.
    rewrite !snapshot_requests_app in Hok.
    rewrite (snapshot_requests_none (inspected row vm)) in Hok
      by (unfold inspected; no_event).
    simpl in Hok. rewrite app_nil_r in Hok. exact Hok.
  - (* the snapshots are requested, and there is no interface *)
    split; [congruence |]. split; [| split].
    + rewrite !snapshot_requests_app.
      rewrite (snapshot_requests_none (inspected row vm)) by (unfold inspected; no_event).
      simpl. rewrite app_nil_r.
      match goal with Hst : snapshot_stage _ _ _ _ |- _ =>
        apply snapshot_stage_requests in Hst; exact (proj1 Hst) end.
    + unfold inspected. no_event.
    + exists (Call (VirtualMachinesGet (Source_Resource_Group_Name row)
                      (Source_VM_Name row)) None
              :: Log INFO (MsgVmSku (Source_VM_Name row) (Source_Resource_Group_Name row)
                             (vm_size vm))
              :: inspected row vm ++ [Call ResourceSkusList None] ++ t0).
      simpl. now rewrite <- !app_assoc.
Qed.

(** [vm1_no_nic]: two snapshot requests, then the exit. *)
Lemma no_network_interface_exits_after_snapshots_witness :
  outcome_of (main_row (scripted happy_no_nic) false row_to_2 5) = SysExit 1
  /\ snapshot_names (trace_of (main_row (scripted happy_no_nic) false row_to_2 5))
     = ["vm1-os-20240101000005"; "vm1-d1-20240101000005"].
Proof.
  split; [| reflexivity].
  assert (Hreach : reaches_snapshot_stage
                     (trace_of (main_row (scripted happy_no_nic) false row_to_2 5))).
  { vm_compute. discriminate. }
  assert (Hok : no_snapshot_refused
                  (trace_of (main_row (scripted happy_no_nic) false row_to_2 5))).
  { vm_compute. repeat constructor. }
  exact (proj1 (no_network_interface_exits_after_snapshots (scripted happy_no_nic) false
                  row_to_2 5 5 vm1_no_nic eq_refl eq_refl Hreach Hok)).
Defined.

(** ** Errors of [delete_vm] and [start_vm] *)

(** A run has no failed call of [delete_vm] or [start_vm], or it ends with it,
    by its exception. *)
Lemma main_vm_run_uncaught check_only row vm P o t :
  main_vm_run check_only row vm P o t ->
  Forall (fun ev => is_uncaught_failure ev = false) t
  \/ exists l req e,
       t = l ++ [Call req (Some e)] /\ o = Raise e
       /\ Forall (fun ev => is_uncaught_failure ev = false) l
       /\ (is_delete_event (Call req (Some e)) = true ->
           Forall (fun ev => is_create_event ev = false) t
           /\ Forall (fun ev => is_start_call ev = false) t).
Proof.
  intros H. inversion H; subst;
    try (left; unfold inspected, deleted; no_event; fail); right.
  - eexists (inspected row vm ++ [Call ResourceSkusList None] ++ t0
             ++ [Log INFO (MsgDeletingVm (Source_VM_Name row)
                             (Source_Resource_Group_Name row) (zones vm))]), _, e.
    split; [now rewrite <- !app_assoc |]. split; [reflexivity |].
    split; [unfold inspected; no_event |].
    intros _. split; unfold inspected; no_event.
  - eexists (inspected row vm ++ [Call ResourceSkusList None] ++ t0
             ++ [Log INFO (MsgDeletingVm (Source_VM_Name row)
                             (Source_Resource_Group_Name row) (zones vm));
                 Call (VirtualMachinesBeginDelete (Source_Resource_Group_Name row)
                         (Source_VM_Name row)) None]), _, e.
    split; [now rewrite <- !app_assoc |]. split; [reflexivity |].
    split; [unfold inspected; no_event |].
    intros _. split; unfold inspected; no_event.
  - eexists (inspected row vm ++ [Call ResourceSkusList None] ++ t0 ++ deleted row vm ++ tc
             ++ [Log INFO (MsgStartingVm (Desired_VM_Name row)
                             (Desired_Resource_Group_Name row))]), _, e.
    split; [now rewrite <- !app_assoc |]. split; [reflexivity |].
    split; [unfold inspected, deleted; no_event |].
    intros Hd. discriminate Hd.
Qed.

(** Nothing catches an exception of [begin_delete], of the wait for the
    delete, or of [begin_start]: the failed call is the last event of the row,
    the row and the run end with its exception and the rows after it are not
    processed.  When it is the delete that failed, nothing of [create_vm] or
    [start_vm] has run. *)
Theorem delete_or_start_error_ends_run {W} (client : ComputeManagementClient W)
    (check_only : bool) (row : Row) (rest : list Row) (w : W)
    (pre : list event) (req : request) (e : exn) (post : list event) :
  trace_of (main_row client check_only row w) = pre ++ Call req (Some e) :: post ->
  is_uncaught_failure (Call req (Some e)) = true ->
  post = []
  /\ outcome_of (main_row client check_only row w) = Raise e
  /\ main client check_only (row :: rest) w = main_row client check_only row w
  /\ (is_delete_event (Call req (Some e)) = true ->
      Forall (fun ev => is_create_event ev = false) (trace_of (main_row client check_only row w))
      /\ Forall (fun ev => is_start_call ev = false)
           (trace_of (main_row client check_only row w))).
Proof.
  intros Htr Hreq.
  assert (Hshape : post = []
            /\ outcome_of (main_row client check_only row w) = Raise e
            /\ (is_delete_event (Call req (Some e)) = true ->
                Forall (fun ev => is_create_event ev = false)
                  (trace_of (main_row client check_only row w))
                /\ Forall (fun ev => is_start_call ev = false)
                     (trace_of (main_row client check_only row w)))).
  { destruct (virtual_machines_get client (Source_Resource_Group_Name row)
                (Source_VM_Name row) w) as [[vm | e0] w1] eqn:Hget.
    - destruct (main_row_cases client check_only row w vm w1 Hget) as (t & Ht & Hrun).
      rewrite Ht in Htr |- *. apply main_vm_run_uncaught in Hrun.
      destruct Hrun as [Hnone | (l & req' & e' & -> & Ho & Hl & Hdel)].
      + exfalso.
        assert (HF : Forall (fun ev => is_uncaught_failure ev = false)
                       (pre ++ Call req (Some e) :: post)).
        { rewrite <- Htr. apply Forall_app. split; [no_event | exact Hnone]. }
        eapply (Forall_false_not_in is_uncaught_failure); [exact HF | | exact Hreq].
        apply in_or_app. right. now left.
      + rewrite app_assoc in Htr.
        apply (unique_split is_uncaught_failure) in Htr;
          [| apply Forall_app; split; [no_event | exact Hl] | constructor | exact Hreq].
        destruct Htr as (_ & E & ->). inversion E; subst req' e'.
        split; [reflexivity |]. split; [exact Ho |].
        intros Hd. destruct (Hdel Hd) as [H1 H2].
        split; (apply Forall_app; split; [no_event | assumption]).
    - destruct (main_row_not_found client check_only row w e0 w1 Hget) as (lv & m & _ & E).
      rewrite E in Htr. exfalso. unfold trace_of in Htr. simpl in Htr.
      destruct pre as [| x [| y [| z pre]]]; simpl in Htr; inversion Htr; subst;
        try discriminate Hreq. }
  destruct Hshape as (Hpost & Ho & Hdel).
  split; [exact Hpost |]. split; [exact Ho |]. split; [| exact Hdel].
  apply main_cons_ends. rewrite Ho. discriminate.
Qed.

(** The wait for the delete of [vm1] fails: nothing is created. *)
Lemma delete_or_start_error_ends_run_witness :
  outcome_of (main (scripted delete_fails) false [row_to_2; row_to_1] 0) = Raise busy
  /\ Forall (fun ev => is_create_event ev = false)
       (trace_of (main_row (scripted delete_fails) false row_to_2 0)).
Proof.
  pose (tr := trace_of (main_row (scripted delete_fails) false row_to_2 0)).
  destruct (delete_or_start_error_ends_run (scripted delete_fails) false row_to_2 [row_to_1] 0
              (firstn 12 tr) (DeleteOperationResult "rg-src" "vm1") busy (skipn 13 tr)
              eq_refl eq_refl) as (_ & Ho & Hm & Hd).
  split.
  - rewrite Hm. exact Ho.
  - exact (proj1 (Hd eq_refl)).
Defined.

(** ** What a snapshot request carries *)

Lemma snapshot_stage_aborted_sources rg loc ds e ts q :
  snapshot_stage_aborted rg loc ds e ts ->
  In q (snapshot_requests ts) ->
  exists d, In d ds /\ snapshot_of_disk rg loc d q.
Proof.
  induction 1 as [d ds t e He | d ds e t1 t2 Hat _ IH]; intros Hin.
  - simpl in Hin. destruct Hin as [<- | []].
    exists d. split; [now left |]. exists t, (Some e). reflexivity.
  - rewrite snapshot_requests_app in Hin. apply in_app_or in Hin.
    destruct Hin as [Hin | Hin].
    + apply snapshot_attempt_requests in Hat. destruct Hat as (q' & Hq' & Hd & _).
      rewrite Hq' in Hin. destruct Hin as [<- | []].
      exists d. split; [now left | exact Hd].
    + destruct (IH Hin) as (d' & Hd' & Hq). exists d'. split; [now right | exact Hq].
Qed.

(** Every snapshot request of a row, whether the row goes on or not, is sent
    to the source resource group for a disk of the source VM: it copies that
    disk's resource ID, in the location of the VM, under the disk's name, a
    dash and the fourteen characters of the time; and its redundancy class is
    [Standard_ZRS] whatever the storage account type of the disk. *)
Theorem snapshot_request_contents {W} (client : ComputeManagementClient W)
    (check_only : bool) (row : Row) (w w1 : W) (vm : VirtualMachine)
    (rg n : string) (s : Snapshot) (r : option exn) :
  virtual_machines_get client (Source_Resource_Group_Name row) (Source_VM_Name row) w
    = (inl vm, w1) ->
  In (rg, n, s, r) (snapshot_requests (trace_of (main_row client check_only row w))) ->
  rg = Source_Resource_Group_Name row
  /\ snap_sku_name s = "Standard_ZRS"
  /\ snap_create_option s = "Copy"
  /\ snap_location s = location vm
  /\ exists d t,
       In d (disks_of vm)
       /\ snap_source_resource_id s = md_id (managed_disk d)
       /\ n = (disk_name d ++ "-" ++ strftime_YmdHMS t)%string
       /\ String.length n = String.length (disk_name d) + 15.
Proof.
  intros Hget.
  destruct (main_row_cases client check_only row w vm w1 Hget) as (t & -> & Hrun).
  rewrite snapshot_requests_app. simpl. intros Hin.
  assert (Hd : exists d, In d (disks_of vm)
                 /\ snapshot_of_disk (Source_Resource_Group_Name row) (location vm) d
                      (rg, n, s, r)).
  { apply main_vm_run_snapshots in Hrun.
    destruct Hrun as [E | [(ts & Hst & E) | (e & ts & Hab & E)]]; rewrite E in Hin.
    - destruct Hin.
    - apply snapshot_stage_requests in Hst. destruct Hst as [H2 _].
      exact (Forall2_in_r _ _ _ _ H2 Hin).
    - exact (snapshot_stage_aborted_sources _ _ _ _ _ _ Hab Hin). }
  destruct Hd as (d & Hd & tm & r' & E). inversion E; subst.
  repeat (split; [reflexivity |]).
  exists d, tm. repeat (split; [assumption || reflexivity |]).
  rewrite string_length_append. reflexivity.
Qed.

(** The snapshot of the premium OS disk of [vm1] is a [Standard_ZRS] one. *)
Lemma snapshot_request_contents_witness :
  md_storage_account_type (managed_disk disk_os) = "Premium_LRS"
  /\ snap_sku_name (snapshot_of "eastus" "/disks/vm1-os") = "Standard_ZRS".
Proof.
  split; [reflexivity |].
  assert (Hin : In ("rg-src", "vm1-os-20240101000005",
                    snapshot_of "eastus" "/disks/vm1-os", @None exn)
                   (snapshot_requests (trace_of (main_row (scripted happy) false row_to_2 5)))).
  { vm_compute. left. reflexivity. }
  exact (proj1 (proj2 (snapshot_request_contents (scripted happy) false row_to_2 5 5 vm1
                         _ _ _ _ eq_refl Hin))).
Defined.

(** ** No retry *)

Lemma filter_none (Q : event -> bool) l :
  Forall (fun ev => Q ev = false) l -> filter Q l = [].
Proof.
  induction 1 as [| ev l Hev _ IH]; [reflexivity |]. simpl. now rewrite Hev.
Qed.

(** Counts the [Q] events of a trace of the script, piece by piece. *)
Ltac count_events :=
  unfold count; repeat rewrite filter_app;
  repeat match goal with
    | |- context [filter ?Q ?l] =>
        rewrite (filter_none Q l) by (unfold inspected, deleted; no_event)
    end;
  simpl; lia.

Lemma main_vm_run_counts check_only row vm P o t :
  main_vm_run check_only row vm P o t ->
  count is_skus_call t <= 1
  /\ count is_begin_delete t <= 1
  /\ count is_create_call t <= 1
  /\ count is_start_call t <= 1.
Proof.
  intros H. inversion H; subst;
    repeat match goal with
      | Hc : create_returns _ _ _ _ _ |- _ => destruct Hc
      | Hs : sku_check _ _ |- _ => inversion Hs; subst; clear Hs
      end;
    repeat split; count_events.
Qed.

(** Nothing is tried twice: in the trace of a row there is one lookup of the
    VM, and at most one enumeration of the catalog, one [begin_delete], one
    create submission and one start submission. *)
Theorem each_step_at_most_once {W} (client : ComputeManagementClient W)
    (check_only : bool) (row : Row) (w : W) :
  let tr := trace_of (main_row client check_only row w) in
  (exists r t, tr = Call (VirtualMachinesGet (Source_Resource_Group_Name row)
                            (Source_VM_Name row)) r :: t
               /\ Forall (fun ev => match ev with
                                    | Call (VirtualMachinesGet _ _) _ => False
                                    | _ => True
                                    end) t)
  /\ count is_skus_call tr <= 1
  /\ count is_begin_delete tr <= 1
  /\ count is_create_call tr <= 1
  /\ count is_start_call tr <= 1.
Proof.
  intros tr. subst tr.
  destruct (virtual_machines_get client (Source_Resource_Group_Name row)
              (Source_VM_Name row) w) as [[vm | e] w1] eqn:Hget.
  - destruct (main_row_cases client check_only row w vm w1 Hget) as (t & -> & Hrun).
    split.
    + eexists. eexists. split; [reflexivity |].
      apply Forall_cons; [exact I |].
      inversion Hrun; subst; unfold inspected, deleted;
        repeat first
          [ apply Forall_nil
          | apply Forall_app; split
          | apply disk_lines_Forall; intros; exact I
          | match goal with
            | H : snapshot_stage _ _ _ ?t |- Forall _ ?t =>
                apply (snapshot_stage_Forall _ _ _ _ _) with (4 := H); intros; exact I
            | H : snapshot_stage_aborted _ _ _ _ ?t |- Forall _ ?t =>
                apply (snapshot_stage_aborted_Forall _ _ _ _ _ _) with (4 := H);
                intros; exact I
            | H : sku_check _ ?t |- Forall _ ?t =>
                apply (sku_check_Forall _ _ _) with (3 := H); intros; exact I
            | H : create_returns _ _ _ _ ?t |- Forall _ ?t =>
                apply (create_returns_Forall _ _ _ _ _ _) with (5 := H); intros; exact I
            end
          | apply Forall_cons; [exact I |] ].
    + apply main_vm_run_counts in Hrun. destruct Hrun as (H1 & H2 & H3 & H4).
      unfold count in *. rewrite !filter_app. simpl. auto.
  - destruct (main_row_not_found client check_only row w e w1 Hget) as (l & m & _ & ->).
    split.
    + eexists. eexists. split; [reflexivity |]. repeat constructor.
    + unfold count. simpl. repeat split; lia.
Qed.

(** ** The rows of a run *)

(** The rows are processed in the order of the file and the first row that
    does not return ends the run: after rows that returned, the run ends as
    that row ends, in the world it leaves, and its trace is the trace of the
    rows before followed by the trace of that row; the rows after it leave no
    event. *)
Theorem first_failing_row_ends_run {W} (client : ComputeManagementClient W)
    (check_only : bool) (done : list Row) (row : Row) (rest : list Row)
    (w0 w : W) (t0 : list event) :
  main client check_only done w0 = (Return tt, w, t0) ->
  outcome_of (main_row client check_only row w) <> Return tt ->
  main client check_only (done ++ row :: rest) w0
  = (outcome_of (main_row client check_only row w),
     world_of (main_row client check_only row w),
     t0 ++ trace_of (main_row client check_only row w)).
Proof.
  intros Hdone Hrow.
  rewrite (main_app _ _ _ _ _ _ _ Hdone), (main_cons_ends _ _ _ _ _ Hrow).
  reflexivity.
Qed.

(** After a skipped row, the row whose create submission is refused ends the
    run; the third row leaves nothing. *)
Lemma first_failing_row_ends_run_witness :
  main (scripted create_refused) false ([row_to_1] ++ row_to_2 :: [row_to_1]) 0
  = (Raise bad_request, 0,
     trace_of (main_row (scripted create_refused) false row_to_1 0)
     ++ trace_of (main_row (scripted create_refused) false row_to_2 0)).
Proof.
  assert (Hrow : outcome_of (main_row (scripted create_refused) false row_to_2 0)
                 <> Return tt) by discriminate.
  exact (first_failing_row_ends_run (scripted create_refused) false [row_to_1] row_to_2
           [row_to_1] 0 0 _ eq_refl Hrow).
Defined.

(** When every row returns, the run returns and its trace is the traces of the
    rows one after the other, each row starting in the world the row before it
    left: no row is left out and none is run twice. *)
Theorem returning_rows_run_in_order {W} (client : ComputeManagementClient W)
    (check_only : bool) (rows1 rows2 : list Row) (w0 w1 w2 : W) (t1 t2 : list event) :
  main client check_only rows1 w0 = (Return tt, w1, t1) ->
  main client check_only rows2 w1 = (Return tt, w2, t2) ->
  main client check_only (rows1 ++ rows2) w0 = (Return tt, w2, t1 ++ t2).
Proof.
  intros H1 H2. rewrite (main_app _ _ _ _ _ _ _ H1), H2. reflexivity.
Qed.

(** Two skipped rows. *)
Lemma returning_rows_run_in_order_witness :
  main (scripted happy) false ([row_to_1] ++ [row_to_1]) 0
  = (Return tt, 0,
     trace_of (main_row (scripted happy) false row_to_1 0)
     ++ trace_of (main_row (scripted happy) false row_to_1 0)).
Proof.
  exact (returning_rows_run_in_order (scripted happy) false [row_to_1] [row_to_1] 0 0 0
           _ _ eq_refl eq_refl).
Defined.

(** ** Check-only mode asks for the VM and nothing else *)

Lemma main_vm_run_check_only_calls row vm P o t :
  main_vm_run true row vm P o t ->
  Forall (fun ev => match ev with Call _ _ => False | Log _ _ => True end) t.
Proof.
  intros H. inversion H; subst; try discriminate; unfold inspected;
    repeat first
      [ apply Forall_nil
      | apply Forall_app; split
      | apply disk_lines_Forall; intros; exact I
      | apply Forall_cons; [exact I |] ].
Qed.

(** In check-only mode the only provider call of a run is the lookup of the
    VM of each row: the size catalog is not enumerated either, so the report
    says nothing of the availability of the size. *)
Theorem check_only_calls_get_only {W} (client : ComputeManagementClient W)
    (csv_data : list Row) (w : W) :
  Forall (fun ev => match ev with
                    | Call (VirtualMachinesGet _ _) _ | Log _ _ => True
                    | Call _ _ => False
                    end)
         (trace_of (main client true csv_data w)).
Proof.
  revert w. induction csv_data as [| row rest IH]; intros w; [constructor |].
  rewrite main_cons.
  assert (Hrow : Forall (fun ev => match ev with
                                   | Call (VirtualMachinesGet _ _) _ | Log _ _ => True
                                   | Call _ _ => False
                                   end)
                        (trace_of (main_row client true row w))).
  { destruct (virtual_machines_get client (Source_Resource_Group_Name row)
                (Source_VM_Name row) w) as [[vm | e] w1] eqn:Hget.
    - destruct (main_row_cases client true row w vm w1 Hget) as (t & -> & Hrun).
      apply main_vm_run_check_only_calls in Hrun.
      repeat (apply Forall_cons; [exact I |]).
      eapply Forall_impl; [| exact Hrun]. intros [l m | r x]; [auto | contradiction].
    - destruct (main_row_not_found client true row w e w1 Hget) as (l & m & _ & ->).
      repeat constructor. }
  destruct (main_row client true row w) as [[[a | e | c] w1] t1];
    unfold trace_of in Hrow; simpl in Hrow; simpl; try exact Hrow.
  apply Forall_app. split; [exact Hrow | apply IH].
Qed.

(** ** The OS type of the target *)

Lemma is_space_lower c : is_space (lower_ascii c) = is_space c.
Proof. destruct c as [[] [] [] [] [] [] [] []]; reflexivity. Qed.

Lemma lower_lstrip s : lower (lstrip s) = lstrip (lower s).
Proof.
  induction s as [| c s IH]; [reflexivity |]. simpl.
  rewrite is_space_lower. destruct (is_space c); [exact IH | reflexivity].
Qed.

Lemma lower_append a b : lower (a ++ b)%string = (lower a ++ lower b)%string.
Proof. induction a as [| c a IH]; simpl; [reflexivity | now rewrite IH]. Qed.

Lemma lower_rev s : lower (string_rev s) = string_rev (lower s).
Proof.
  induction s as [| c s IH]; [reflexivity |]. simpl.
  now rewrite lower_append, IH.
Qed.

(** Lowering and stripping commute. *)
Lemma lower_strip s : lower (strip s) = strip (lower s).
Proof.
  unfold strip. now rewrite lower_rev, lower_lstrip, lower_rev, lower_lstrip.
Qed.

(** The OS type of the create request depends on the OS type column of the
    row only up to the case of its ASCII letters, and it is ['Linux'] or
    ['Windows']; everything else of the request does not depend on that
    column at all. *)
Theorem os_type_ignores_case (r1 r2 : Row) (vm : VirtualMachine)
    (nic : NetworkInterfaceReference) :
  lower (Source_OS_Type r1) = lower (Source_OS_Type r2) ->
  Desired_Zone r1 = Desired_Zone r2 ->
  (os_type_of r1 = "Linux" \/ os_type_of r1 = "Windows")
  /\ os_type_of r1 = os_type_of r2
  /\ request_for r1 vm nic = request_for r2 vm nic.
Proof.
  intros Hl Hz.
  assert (E : os_type_of r1 = os_type_of r2).
  { unfold os_type_of. now rewrite !lower_strip, Hl. }
  split; [| split; [exact E |]].
  - unfold os_type_of. destruct (contains "linux" _); auto.
  - unfold request_for. now rewrite E, Hz.
Qed.

(** [" Linux "] and ["LINUX"] both give a Linux target. *)
Lemma os_type_ignores_case_witness :
  os_type_of row_to_2 = "Linux"
  /\ os_type_of (mkRow "rg-src" "vm1" " LINUX " "rg-dst" "vm1-z2" "2") = "Linux".
Proof.
  split; [reflexivity |].
  destruct (os_type_ignores_case row_to_2 (mkRow "rg-src" "vm1" " LINUX " "rg-dst" "vm1-z2" "2")
              vm1 (mkNic "/nics/vm1-nic") eq_refl eq_refl) as (_ & E & _).
  rewrite <- E. reflexivity.
Defined.

(** ** Snapshot names *)

Lemma digit_inj a b : digit a = digit b -> a mod 10 = b mod 10.
Proof.
  unfold digit. intros E. apply (f_equal nat_of_ascii) in E.
  assert (Ha : a mod 10 < 10) by (apply Nat.mod_upper_bound; discriminate).
  assert (Hb : b mod 10 < 10) by (apply Nat.mod_upper_bound; discriminate).
  rewrite !nat_ascii_embedding in E by lia. lia.
Qed.

Lemma digits_step a b : a / 10 = b / 10 -> a mod 10 = b mod 10 -> a = b.
Proof.
  intros Hq Hr. rewrite (Nat.div_mod_eq a 10), (Nat.div_mod_eq b 10). now rewrite Hq, Hr.
Qed.

Lemma two_digits a b :
  a < 100 -> b < 100 ->
  (a / 10) mod 10 = (b / 10) mod 10 -> a mod 10 = b mod 10 -> a = b.
Proof.
  intros Ha Hb E1 E2. apply digits_step; [| exact E2].
  rewrite !Nat.mod_small in E1; [exact E1 | |];
    apply Nat.Div0.div_lt_upper_bound; lia.
Qed.

Lemma four_digits a b :
  a < 10 * 1000 -> b < 10 * 1000 ->
  (a / 1000) mod 10 = (b / 1000) mod 10 ->
  (a / 100) mod 10 = (b / 100) mod 10 ->
  (a / 10) mod 10 = (b / 10) mod 10 ->
  a mod 10 = b mod 10 -> a = b.
Proof.
  intros Ha Hb E3 E2 E1 E0.
  apply digits_step; [| exact E0].
  apply digits_step; [| exact E1].
  rewrite !Nat.Div0.div_div. change (10 * 10) with 100.
  apply digits_step; [| exact E2].
  rewrite !Nat.Div0.div_div. change (100 * 10) with 1000.
  rewrite !Nat.mod_small in E3; [exact E3 | |];
    apply Nat.Div0.div_lt_upper_bound; lia.
Qed.

(** The time to the second can be read back from the fourteen characters. *)
Lemma strftime_inj t1 t2 :
  well_formed t1 -> well_formed t2 ->
  strftime_YmdHMS t1 = strftime_YmdHMS t2 -> t1 = t2.
Proof.
  destruct t1 as [y1 mo1 d1 h1 mi1 s1], t2 as [y2 mo2 d2 h2 mi2 s2].
  unfold well_formed, strftime_YmdHMS, pad4, pad2. simpl.
  intros (Hy1 & Hmo1 & Hd1 & Hh1 & Hmi1 & Hs1) (Hy2 & Hmo2 & Hd2 & Hh2 & Hmi2 & Hs2) E.
  injection E as Ea Eb Ec Ed Ee Ef Eg Eh Ei Ej Ek El Em En.
  apply digit_inj in Ea, Eb, Ec, Ed, Ee, Ef, Eg, Eh, Ei, Ej, Ek, El, Em, En.
  f_equal; first [apply four_digits; assumption | apply two_digits; (assumption || lia)].
Qed.

(** The name of a snapshot tells the disk and the second apart: two snapshot
    names are equal only for the same disk name and the same time to the
    second.  So a second run does not overwrite the snapshot of a first run
    that was made in another second, and two disks of different names never
    share a snapshot name. *)
Theorem snapshot_name_tells_disk_and_second (d1 d2 : string) (t1 t2 : datetime) :
  well_formed t1 -> well_formed t2 ->
  snapshot_name_of d1 t1 = snapshot_name_of d2 t2 ->
  d1 = d2 /\ t1 = t2.
Proof.
  intros H1 H2 E. unfold snapshot_name_of in E.
  assert (Hd : d1 = d2) by (exact (snapshot_name_inj _ _ _ _ E)).
  split; [exact Hd |]. subst d2.
  apply strftime_inj; [assumption .. |].
  assert (Hs : forall a x y, (a ++ x)%string = (a ++ y)%string -> x = y).
  { induction a as [| c a IH]; simpl; intros x y Hxy; [exact Hxy |].
    injection Hxy as Hxy. now apply IH. }
  apply Hs in E. apply Hs in E. exact E.
Qed.

(** The same disk, one second later: another name. *)
Lemma snapshot_name_tells_disk_and_second_witness :
  snapshot_name_of "vm1-os" (clock 5) <> snapshot_name_of "vm1-os" (clock 6).
Proof.
  intros E.
  assert (H5 : well_formed (clock 5)) by (unfold well_formed; simpl; lia).
  assert (H6 : well_formed (clock 6)) by (unfold well_formed; simpl; lia).
  destruct (snapshot_name_tells_disk_and_second "vm1-os" "vm1-os" (clock 5) (clock 6)
              H5 H6 E) as [_ Ht].
  discriminate Ht.
Defined.

(** ** The columns of the CSV file *)

Lemma subscript_run {W} (d : DictRow) k (w : W) :
  subscript d k w
  = match dict_get k d with
    | Some v => (Return v, w, [])
    | None => (Raise (key_error k), w, [])
    end.
Proof. unfold subscript. destruct (dict_get k d); reflexivity. Qed.

(** Reading the columns of a row calls nothing and logs nothing; it gives the
    row, or the [KeyError] of the first column, in the order of the reads,
    that the dictionary has not. *)
Lemma read_row_run {W} (d : DictRow) (w : W) :
  (read_row d w = (Return (row_of d), w, [])
   /\ forall k, In k columns -> dict_get k d <> None)
  \/ exists k, In k columns /\ dict_get k d = None
               /\ read_row d w = (Raise (key_error k), w, []).
Proof.
  unfold read_row, row_of, bind. rewrite !subscript_run.
  destruct (dict_get "#Source Resource Group Name" d) eqn:E1;
    [| right; eexists; split; [| split; [exact E1 | reflexivity]]; simpl; auto].
  rewrite !subscript_run.
  destruct (dict_get "Source VM Name" d) eqn:E2;
    [| right; eexists; split; [| split; [exact E2 | reflexivity]]; simpl; auto].
  rewrite !subscript_run.
  destruct (dict_get "Source OS Type" d) eqn:E3;
    [| right; eexists; split; [| split; [exact E3 | reflexivity]]; simpl; auto].
  rewrite !subscript_run.
  destruct (dict_get "Desired Resource Group Name" d) eqn:E4;
    [| right; eexists; split; [| split; [exact E4 | reflexivity]]; simpl; auto].
  rewrite !subscript_run.
  destruct (dict_get "Desired VM Name" d) eqn:E5;
    [| right; eexists; split; [| split; [exact E5 | reflexivity]]; simpl; auto 10].
  rewrite !subscript_run.
  destruct (dict_get "Desired Zone" d) eqn:E6;
    [| right; eexists; split; [| split; [exact E6 | reflexivity]]; simpl; auto 10].
  left. split; [reflexivity |].
  intros k [<- | [<- | [<- | [<- | [<- | [<- | []]]]]]]; congruence.
Qed.

Lemma main_csv_cons {W} (client : ComputeManagementClient W) check_only d rest w :
  main_csv client check_only (d :: rest) w
  = match read_row d w with
    | (Return row, w0, t0) =>
        match main_row client check_only row w0 with
        | (Return _, w1, t1) =>
            (outcome_of (main_csv client check_only rest w1),
             world_of (main_csv client check_only rest w1),
             (t0 ++ t1) ++ trace_of (main_csv client check_only rest w1))
        | (Raise e, w1, t1) => (Raise e, w1, t0 ++ t1)
        | (SysExit c, w1, t1) => (SysExit c, w1, t0 ++ t1)
        end
    | (Raise e, w0, t0) => (Raise e, w0, t0)
    | (SysExit c, w0, t0) => (SysExit c, w0, t0)
    end.
Proof.
  unfold main_csv. simpl. unfold bind.
  destruct (read_row d w) as [[[row | e | c] w0] t0]; try reflexivity.
  destruct (main_row client check_only row w0) as [[[a | e | c] w1] t1]; try reflexivity.
  destruct (for_each rest _ w1) as [[o w2] t2]. reflexivity.
Qed.



(** When every row has the six columns, the loop on the dictionaries is the
    loop of [main] on the rows read from them: the same outcome, the same
    world, the same trace. *)
Theorem main_csv_is_main_on_rows {W} (client : ComputeManagementClient W)
    (check_only : bool) (csv_data : list DictRow) (w : W) :
  Forall (fun d => forall k, In k columns -> dict_get k d <> None) csv_data ->
  main_csv client check_only csv_data w = main client check_only (map row_of csv_data) w.
Proof.
  intros Hall. revert w. induction Hall as [| d rest Hd _ IH]; intros w; [reflexivity |].
  simpl map. rewrite main_csv_cons, main_cons.
  destruct (read_row_run d w) as [[E _] | (k & Hk & Hn & _)];
    [| exfalso; exact (Hd k Hk Hn)].
  rewrite E.
  destruct (main_row client check_only (row_of d) w) as [[[a | e | c] w1] t1];
    try reflexivity.
  now rewrite IH.
Qed.

(** The dictionary of [row_to_2]. *)
Lemma main_csv_is_main_on_rows_witness :
  main_csv (scripted happy) false [dict_to_2] 0 = main (scripted happy) false [row_to_2] 0.
Proof.
  assert (Hall : Forall (fun d => forall k, In k columns -> dict_get k d <> None)
                   [dict_to_2]).
  { constructor; [| constructor].
    intros k [<- | [<- | [<- | [<- | [<- | [<- | []]]]]]]; discriminate. }
  exact (main_csv_is_main_on_rows (scripted happy) false [dict_to_2] 0 Hall).
Defined.

(** ** The start of the script *)

Lemma main_row_exit_code {W} (client : ComputeManagementClient W) check_only row w c :
  outcome_of (main_row client check_only row w) = SysExit c -> c = 1%Z.
Proof.
  intros Ho.
  destruct (virtual_machines_get client (Source_Resource_Group_Name row)
              (Source_VM_Name row) w) as [[vm | e] w1] eqn:Hget.
  - destruct (main_row_cases client check_only row w vm w1 Hget) as (t & _ & Hrun).
    rewrite Ho in Hrun. apply main_vm_run_exit in Hrun. tauto.
  - destruct (main_row_not_found client check_only row w e w1 Hget) as (l & m & _ & E).
    rewrite E in Ho. discriminate Ho.
Qed.

Lemma main_csv_exit_code {W} (client : ComputeManagementClient W) check_only ds w c :
  outcome_of (main_csv client check_only ds w) = SysExit c -> c = 1%Z.
Proof.
  revert w. induction ds as [| d rest IH]; intros w; [discriminate |].
  rewrite main_csv_cons.
  destruct (read_row_run d w) as [[E _] | (k & _ & _ & E)]; rewrite E; [| discriminate].
  destruct (main_row client check_only (row_of d) w) as [[[a | e | c'] w1] t1] eqn:Er.
  - unfold outcome_of at 1. simpl. apply IH.
  - discriminate.
  - intros H. inversion H; subst c'.
    apply (main_row_exit_code client check_only (row_of d) w). now rewrite Er.
Qed.

(** The provider is contacted only after the login check and the reading of
    the CSV file: when there is an event of [main] in the trace of the
    script, [az account show] has completed and the file has been opened and
    read, and the event is one of the loop on its rows. *)
Theorem provider_contacted_only_after_startup {W} (host : Host W)
    (client : ComputeManagementClient W) (check_only : bool) (csv_file_path : string)
    (w : W) (ev : event) :
  In (Migration ev) (snd (script host client check_only csv_file_path w)) ->
  exists w1 csv_data w2,
    az_account_show host w = (AzCompleted, w1)
    /\ open_csv host csv_file_path w1 = (Opened csv_data, w2)
    /\ In ev (trace_of (main_csv client check_only csv_data w2)).
Proof.
  unfold script, check_azure_login, read_csv.
  destruct (az_account_show host w) as [[| | | e] w1]; simpl;
    try (intros [H | []]; discriminate H); try (intros []).
  destruct (open_csv host csv_file_path w1) as [[rows | msg | e] w2] eqn:Eo; simpl;
    try (intros [H | []]; discriminate H); try (intros []).
  destruct (main_csv client check_only rows w2) as [[o w3] t3] eqn:E. simpl.
  intros Hin. apply in_map_iff in Hin. destruct Hin as (ev' & Hev & Hin).
  inversion Hev; subst ev'.
  exists w1, rows, w2. split; [reflexivity |]. split; [exact Eo |].
  rewrite E. exact Hin.
Qed.

(** On [host_ready] the VM of the row is looked up. *)
Lemma provider_contacted_only_after_startup_witness :
  exists w1 csv_data w2,
    az_account_show host_ready 0 = (AzCompleted, w1)
    /\ open_csv host_ready "moves.csv" w1 = (Opened csv_data, w2)
    /\ In (Call (VirtualMachinesGet "rg-src" "vm1") None)
          (trace_of (main_csv (scripted happy) false csv_data w2)).
Proof.
  exact (provider_contacted_only_after_startup host_ready (scripted happy) false "moves.csv" 0
           (Call (VirtualMachinesGet "rg-src" "vm1") None) (or_introl eq_refl)).
Defined.

(** Whenever the script ends with [sys.exit], at the login check, at the
    opening of the CSV file or in a row, the exit code is 1. *)
Theorem script_exits_with_1 {W} (host : Host W) (client : ComputeManagementClient W)
    (check_only : bool) (csv_file_path : string) (w : W) (c : Z) :
  fst (fst (script host client check_only csv_file_path w)) = SysExit c -> c = 1%Z.
Proof.
  unfold script, check_azure_login, read_csv.
  destruct (az_account_show host w) as [[| | | e] w1]; simpl;
    try (intros H; inversion H; reflexivity); try discriminate.
  destruct (open_csv host csv_file_path w1) as [[rows | msg | e] w2]; simpl;
    try (intros H; inversion H; reflexivity); try discriminate.
  destruct (main_csv client check_only rows w2) as [[o w3] t3] eqn:E. simpl.
  intros ->. apply (main_csv_exit_code client check_only rows w2). now rewrite E.
Qed.

(** The file is not there: exit code 1. *)
Lemma script_exits_with_1_witness :
  fst (fst (script host_ready (scripted happy) false "missing.csv" 0)) = SysExit 1
  /\ (1 = 1)%Z.
Proof.
  split; [reflexivity |].
  exact (script_exits_with_1 host_ready (scripted happy) false "missing.csv" 0 1 eq_refl).
Defined.
